(** * function_explorer: a shallow embedding and its specification

    Source: [src/streamlit_extras/function_explorer/__init__.py].

    The module renders one input widget per parameter of a Python function,
    calls the function with the collected values and remembers them in the
    Streamlit session store.  The embedding keeps the three things the code
    touches apart:

    - Python values and the two dynamic operations the code relies on,
      truth testing ([or], [if]) and [==] (inside [tuple.index]);
    - the session store, a dictionary of dictionaries;
    - the screen: every [st.*] call is recorded as an event, and the value
      a widget returns comes from an oracle standing for the user. *)

From Stdlib Require Import ZArith Floats.SpecFloat.
From stdpp Require Import gmap strings list fin_maps.

Open Scope string_scope.

(** ** Python values *)

(** The values that can reach the code: defaults of parameters, overrides,
    widget results and remembered inputs.  Floats are IEEE binary64 numbers
    in the representation of [SpecFloat]; a data frame is its rows. *)
#[warnings="-register-all"]
Inductive value :=
| VNone
| VBool (b : bool)
| VInt (n : Z)
| VFloat (x : spec_float)
| VStr (s : string)
| VDataFrame (rows : list (list value)).

(** Exceptions that the code or the runtime raise on the paths modelled. *)
Inductive exn :=
| KeyError (key : string)
| ValueError
| IndexError
| TypeError
| Exception (msg : string)
| Raised (what : string).

Inductive result (A : Type) :=
| Ok (a : A)
| Err (e : exn).
Arguments Ok {A} a.
Arguments Err {A} e.

Definition rbind {A B} (r : result A) (k : A -> result B) : result B :=
  match r with
  | Ok a => k a
  | Err e => Err e
  end.

(** ** Truth value and equality *)

Definition float_is_zero (x : spec_float) : bool :=
  match x with
  | S754_zero _ => true
  | _ => false
  end.

(** [bool(v)].  [None], [False], zero and the empty string are falsy; the
    truth value of a pandas DataFrame is ambiguous and raises [ValueError]. *)
Definition truth (v : value) : result bool :=
  match v with
  | VNone => Ok false
  | VBool b => Ok b
  | VInt n => Ok (negb (n =? 0)%Z)
  | VFloat x => Ok (negb (float_is_zero x))
  | VStr s => Ok (negb (String.eqb s ""))
  | VDataFrame _ => Err ValueError
  end.

(** [a or b]: [a] when it is truthy, [b] otherwise; only [a] is tested. *)
Definition py_or (a b : value) : result value :=
  rbind (truth a) (fun t => Ok (if t then a else b)).

(** Numbers compare across [bool], [int] and [float] by their exact value. *)
Inductive number :=
| NInt (n : Z)
| NFloat (x : spec_float).

Definition as_number (v : value) : option number :=
  match v with
  | VBool b => Some (NInt (if b then 1 else 0))
  | VInt n => Some (NInt n)
  | VFloat x => Some (NFloat x)
  | _ => None
  end.

Definition float_eq_int (x : spec_float) (n : Z) : bool :=
  match x with
  | S754_zero _ => (n =? 0)%Z
  | S754_finite s m e =>
      let sm := if s then Z.neg m else Z.pos m in
      if (0 <=? e)%Z then (n =? sm * 2 ^ e)%Z else (n * 2 ^ (- e) =? sm)%Z
  | _ => false
  end.

Definition number_eqb (a b : number) : bool :=
  match a, b with
  | NInt m, NInt n => (m =? n)%Z
  | NFloat x, NFloat y => SFeqb x y
  | NInt n, NFloat x | NFloat x, NInt n => float_eq_int x n
  end.

(** The truth value of [a == b].  Comparing with a DataFrame yields a frame
    of booleans, whose truth value raises. *)
Definition py_eq (a b : value) : result bool :=
  match as_number a, as_number b with
  | Some x, Some y => Ok (number_eqb x y)
  | _, _ =>
      match a, b with
      | VDataFrame _, _ | _, VDataFrame _ => Err ValueError
      | VNone, VNone => Ok true
      | VStr s, VStr t => Ok (String.eqb s t)
      | _, _ => Ok false
      end
  end.

(** [options.index(v)]: position of the first option equal to [v],
    [ValueError] when there is none. *)
Fixpoint tuple_index (options : list value) (v : value) : result nat :=
  match options with
  | [] => Err ValueError
  | o :: rest =>
      rbind (py_eq o v) (fun same =>
        if same then Ok 0
        else rbind (tuple_index rest v) (fun i => Ok (S i)))
  end.

(** [options[0]]. *)
Definition first_option (options : list value) : result value :=
  match options with
  | [] => Err IndexError
  | o :: _ => Ok o
  end.

(** ** Dictionaries with insertion order *)

(** A Python [dict] keeps its keys in insertion order; [inputs] is one, and
    its order is what the callee and the reader of the store see. *)
Definition dict := list (string * value).

Fixpoint dict_get (d : dict) (k : string) : option value :=
  match d with
  | [] => None
  | (k', v) :: rest => if String.eqb k' k then Some v else dict_get rest k
  end.

(** [d[k] = v]: an existing key keeps its position. *)
Fixpoint dict_set (d : dict) (k : string) (v : value) : dict :=
  match d with
  | [] => [(k, v)]
  | (k', v') :: rest =>
      if String.eqb k' k then (k', v) :: rest else (k', v') :: dict_set rest k v
  end.

Definition dict_keys (d : dict) : list string := map fst d.

Definition dict_mem (d : dict) (k : string) : bool :=
  match dict_get d k with
  | Some _ => true
  | None => false
  end.

(** ** Annotations *)

(** What a parameter's annotation can be once [inspect.signature] has
    returned it.  The code looks at an annotation in five ways: identity
    with [inspect.Parameter.empty], being an instance of [UnionType]
    (with [__args__]), [__name__], equality with [int], [float], [str],
    [bool] and [pd.DataFrame], and the text [str(type_hint)] (with
    [get_args]).  [TyOther] is any other object, with or without a
    [__name__]; [TyUnion] carries the [__name__] the runtime gives it, if
    any. *)
#[warnings="-register-all"]
Inductive hint :=
| TyEmpty
| TyInt
| TyFloat
| TyStr
| TyBool
| TyNoneType
| TyDataFrame
| TyLiteral (options : list value)
| TyUnion (name : option string) (args : list hint)
| TyOther (name : option string) (shown : string).

(** [type_hint.__name__] when [hasattr(type_hint, "__name__")]. *)
Definition hint_name (h : hint) : option string :=
  match h with
  | TyEmpty => Some "_empty"
  | TyInt => Some "int"
  | TyFloat => Some "float"
  | TyStr => Some "str"
  | TyBool => Some "bool"
  | TyNoneType => Some "NoneType"
  | TyDataFrame => Some "DataFrame"
  | TyLiteral _ => Some "Literal"
  | TyUnion name _ => name
  | TyOther name _ => name
  end.

(** [str(type_hint).startswith("typing.Literal")].  Classes print as
    ["<class '...'>"] and unions as ["typing.Optional[...]"] or
    ["typing.Union[...]"]. *)
Definition str_startswith_typing_Literal (h : hint) : bool :=
  match h with
  | TyLiteral _ => true
  | TyOther _ shown => String.prefix "typing.Literal" shown
  | _ => false
  end.

(** [typing.get_args] on an annotation that passed the test above. *)
Definition get_args (h : hint) : list value :=
  match h with
  | TyLiteral options => options
  | _ => []
  end.

(** [argument.endswith(suffix)]. *)
Definition endswith (s suffix : string) : bool :=
  let n := String.length s in
  let m := String.length suffix in
  (m <=? n)%nat && String.eqb (String.substring (n - m) m s) suffix.

(** ** Arguments and functions *)

(** The dataclass [Argument]; [default = None] is
    [inspect.Parameter.empty], a parameter without a default. *)
Record Argument := {
  argument : string;
  type_hint : hint;
  default : option value
}.

(** ** The screen *)

Inductive widget_call :=
| st_text_input (label : string) (value : value)
| st_number_input (label : string) (step : option Z) (value : value)
| st_color_picker (label : string) (value : value)
| st_keyup (label : string) (value : value)
| st_checkbox (label : string) (value : value)
| st_selectbox (label : string) (options : list value) (index : nat).

Inductive event :=
| st_write (text : string)
| st_widget (w : widget_call)
| st_warning (about : hint).

(** A computation writes to the screen and returns or raises; what was
    written before an exception stays written. *)
Definition io (A : Type) : Type := list event * result A.

Definition ret {A} (a : A) : io A := ([], Ok a).
Definition raise {A} (e : exn) : io A := ([], Err e).
Definition lift {A} (r : result A) : io A := ([], r).
Definition emit (e : event) : io unit := ([e], Ok tt).

Definition bind {A B} (m : io A) (k : A -> io B) : io B :=
  match m with
  | (out, Ok a) => let (out', r) := k a in ((out ++ out')%list, r)
  | (out, Err e) => (out, Err e)
  end.

Notation "'let*' x := m 'in' k" := (bind m (fun x => k))
  (at level 10, x name, m at level 100, k at level 200).
Notation "m ;; k" := (bind m (fun _ => k))
  (at level 100, k at level 200, right associativity).

(** The [for] loop over a list, threading the loop-carried state. *)
Fixpoint for_each {A S} (body : S -> A -> io S) (xs : list A) (s : S) : io S :=
  match xs with
  | [] => ret s
  | x :: rest => let* s' := body s x in for_each body rest s'
  end.

(** The kinds of parameter of [inspect.Parameter.kind]: [x, /], plain
    [x], [*args], [*, x] and [**kwargs]. *)
Inductive parameter_kind :=
| POSITIONAL_ONLY
| POSITIONAL_OR_KEYWORD
| VAR_POSITIONAL
| KEYWORD_ONLY
| VAR_KEYWORD.

(** A Python function as the explorer sees it: its [__name__], the
    parameters of [inspect.signature(func)] in declaration order (name,
    annotation, default, kind), and what calling it with keyword arguments
    does (output on the screen, then return or raise). *)
Record sig_parameter := {
  annotation : hint;
  param_default : option value;
  kind : parameter_kind
}.

Record py_function := {
  name : string;
  signature : list (string * sig_parameter);
  body : dict -> io unit
}.

(** The parameters a keyword argument can bind. *)
Definition by_keyword (k : parameter_kind) : bool :=
  match k with
  | POSITIONAL_OR_KEYWORD | KEYWORD_ONLY => true
  | _ => false
  end.

(** [*args] and [**kwargs], which no call leaves unbound. *)
Definition variadic (k : parameter_kind) : bool :=
  match k with
  | VAR_POSITIONAL | VAR_KEYWORD => true
  | _ => false
  end.

(** Whether the function has a [**kwargs] parameter. *)
Definition takes_any_keyword (func : py_function) : bool :=
  existsb (fun kv => match kind (snd kv) with
                     | VAR_KEYWORD => true
                     | _ => false
                     end) (signature func).

(** A keyword is accepted when it names a parameter that keywords can
    bind, or when [**kwargs] collects it. *)
Definition accepts (func : py_function) (key : string) : bool :=
  existsb (fun kv => String.eqb (fst kv) key && by_keyword (kind (snd kv)))
          (signature func)
  || takes_any_keyword func.

(** A parameter is bound after a call with keywords only when it is
    variadic, has a default, or is bound by its keyword. *)
Definition bound (kwargs : dict) (kv : string * sig_parameter) : bool :=
  variadic (kind (snd kv))
  || match param_default (snd kv) with
     | Some _ => true
     | None => by_keyword (kind (snd kv)) && dict_mem kwargs (fst kv)
     end.

(** Calling [func] with keyword arguments only, as line 144 does.  The
    call raises [TypeError] before the body runs when a keyword is not
    accepted (an unknown name, or the name of a positional-only or [*args]
    parameter, without [**kwargs] to collect it) or when a parameter is left
    unbound. *)
Definition call (func : py_function) (kwargs : dict) : io unit :=
  if forallb (accepts func) (dict_keys kwargs)
     && forallb (bound kwargs) (signature func)
  then body func kwargs
  else raise TypeError.

(** ** The code *)

Definition get_arg_details (func : py_function) : list Argument :=
  map (fun kv => {| argument := fst kv;
                    type_hint := annotation (snd kv);
                    default := param_default (snd kv) |})
      (signature func).

(** [st.session_state]: under a function's name, a dictionary whose key
    ["inputs"] holds the inputs of the last run. *)
Abbreviation session := (gmap string (gmap string dict)).

(** Returns [None] when nothing is remembered for the function; subscripting
    the remembered inputs with a missing argument raises [KeyError]. *)
Definition get_arg_from_session_state
    (session_state : session) (func_name argument : string) : result value :=
  match session_state !! func_name with
  | Some record =>
      match record !! "inputs" with
      | Some inputs =>
          match dict_get inputs argument with
          | Some v => Ok v
          | None => Err (KeyError argument)
          end
      | None => Ok VNone
      end
  | None => Ok VNone
  end.

(** [get_arg_from_session_state(func.__name__, argument) or default]. *)
Definition remembered_or
    (session_state : session) (func_name argument : string) (default : value)
  : result value :=
  rbind (get_arg_from_session_state session_state func_name argument)
        (fun remembered => py_or remembered default).

(** [get_arg_from_session_state(...) or default if not is_empty(default)
    else fallback]: the conditional expression binds weaker than [or], so
    the store is consulted only when there is a default. *)
Definition remembered_or_default_if_any
    (session_state : session) (func_name argument : string)
    (default : option value) (fallback : result value) : result value :=
  match default with
  | Some d => remembered_or session_state func_name argument d
  | None => fallback
  end.

(** [get_arg_from_session_state(...) or (default if not is_empty(default)
    else fallback)], the parenthesised form of the [int] branch. *)
Definition remembered_or_default_or
    (session_state : session) (func_name argument : string)
    (default : option value) (fallback : value) : result value :=
  remembered_or session_state func_name argument
    (match default with
     | Some d => d
     | None => fallback
     end).

(** Lines 72-73: a non-empty [default_arguments] holding the argument
    replaces the declared default. *)
Definition override
    (default_arguments : option (gmap string value)) (argument : string)
    (default : option value) : option value :=
  match default_arguments with
  | Some overrides =>
      if decide (overrides = ∅) then default
      else match overrides !! argument with
           | Some v => Some v
           | None => default
           end
  | None => default
  end.

(** Lines 75-79: a union of two arguments whose second is [NoneType] is
    replaced by its first argument. *)
Definition strip_optional (h : hint) : hint :=
  match h with
  | TyUnion _ [first; TyNoneType] => first
  | _ => h
  end.

Definition twelve_point_zero : spec_float :=
  S754_finite false 6755399441055744 (-49).

(** [pd.DataFrame(["abcde"])]: one row, one column. *)
Definition placeholder_frame : value := VDataFrame [[VStr "abcde"]].

Section Explorer.

(** What the user does with a widget: the value the call returns (or the
    exception Streamlit raises for it). *)
Variable ui : widget_call -> result value.

Definition widget (w : widget_call) : io value := ([st_widget w], ui w).

Variable session_state : session.
Variable func_name : string.
Variable default_arguments : option (gmap string value).

(** The body of the loop at lines 65-141, from the inputs collected so
    far to the inputs after this argument. *)
Definition render_argument (inputs : dict) (argument_info : Argument) : io dict :=
  let argument := argument argument_info in
  let type_hint := type_hint argument_info in
  let default := default argument_info in
  let label := match default with
               | Some _ => argument
               | None => argument ++ "*"
               end in
  let default := override default_arguments argument default in
  let type_hint := strip_optional type_hint in
  let recall := remembered_or_default_if_any session_state func_name argument default in
  match type_hint with
  | TyEmpty =>
      let* default := lift (recall (Ok (VStr "Sample string"))) in
      let* v := widget (st_text_input label default) in
      ret (dict_set inputs argument v)
  | _ =>
      match hint_name type_hint with
      | None =>
          (* the message goes on with [str(type_hint)] *)
          raise (Exception "Not sure how to handle")
      | Some type_name =>
          let label := label ++ " (" ++ type_name ++ ")" in
          match type_hint with
          | TyInt =>
              let* default :=
                lift (remembered_or_default_or session_state func_name argument
                                               default (VInt 12)) in
              let* v := widget (st_number_input label (Some 1%Z) default) in
              ret (dict_set inputs argument v)
          | TyFloat =>
              let* default := lift (recall (Ok (VFloat twelve_point_zero))) in
              let* v := widget (st_number_input label None default) in
              ret (dict_set inputs argument v)
          | TyStr =>
              if endswith argument "_color" then
                let* default := lift (recall (Ok (VStr "#000000"))) in
                let* v := widget (st_color_picker label default) in
                ret (dict_set inputs argument v)
              else
                let* default := lift (recall (Ok (VStr "Sample string"))) in
                let* v := widget (st_keyup label default) in
                ret (dict_set inputs argument v)
          | TyBool =>
              let* default := lift (recall (Ok (VBool true))) in
              let* v := widget (st_checkbox label default) in
              ret (dict_set inputs argument v)
          | TyDataFrame =>
              let* v := lift (remembered_or session_state func_name argument
                                            placeholder_frame) in
              ret (dict_set inputs argument v)
          | _ =>
              if str_startswith_typing_Literal type_hint then
                let options := get_args type_hint in
                let* default := lift (recall (first_option options)) in
                let* idx := lift (tuple_index options default) in
                let* v := widget (st_selectbox label options idx) in
                ret (dict_set inputs argument v)
              else
                emit (st_warning type_hint);;
                ret inputs
          end
      end
  end.

End Explorer.

(** Lines 145-147: the record under the function's name is created when
    missing, and its key ["inputs"] is set. *)
Definition remember (session_state : session) (func_name : string) (inputs : dict)
  : session :=
  let session_state :=
    match session_state !! func_name with
    | Some _ => session_state
    | None => <[func_name := ∅]> session_state
    end in
  match session_state !! func_name with
  | Some record => <[func_name := <["inputs" := inputs]> record]> session_state
  | None => session_state
  end.

(** Lines 56-141: the two introductory lines and the loop; the result is
    the dictionary [inputs]. *)
Definition render_inputs
    (ui : widget_call -> result value) (session_state : session)
    (func : py_function) (default_arguments : option (gmap string value))
  : io dict :=
  let args := get_arg_details func in
  emit (st_write "##### Inputs");;
  emit (st_write ("Go ahead and play with `" ++ name func
                  ++ "` parameters, see how they change the output!"));;
  for_each (render_argument ui session_state (name func) default_arguments)
           args [].

(** Lines 56-144: everything up to and including the call of [func]. *)
Definition render_and_call
    (ui : widget_call -> result value) (session_state : session)
    (func : py_function) (default_arguments : option (gmap string value))
  : io dict :=
  let* inputs := render_inputs ui session_state func default_arguments in
  emit (st_write "##### Output");;
  call func inputs;;
  ret inputs.

(** [function_explorer(func, default_arguments)]: the session store after
    the run, what was put on the screen, and whether the run returned.  The
    store is written after [func] has returned, so a run that raises leaves
    it as it was. *)
Definition function_explorer
    (ui : widget_call -> result value) (session_state : session)
    (func : py_function) (default_arguments : option (gmap string value))
  : session * io unit :=
  match render_and_call ui session_state func default_arguments with
  | (screen, Ok inputs) =>
      (remember session_state (name func) inputs, (screen, Ok tt))
  | (screen, Err e) => (session_state, (screen, Err e))
  end.

(** A user who leaves every widget as it is rendered: the widget returns
    the value it was given, the selector the option at its index. *)
Definition untouched (w : widget_call) : result value :=
  match w with
  | st_text_input _ v | st_number_input _ _ v | st_color_picker _ v
  | st_keyup _ v | st_checkbox _ v => Ok v
  | st_selectbox _ options idx =>
      match options !! idx with
      | Some v => Ok v
      | None => Err IndexError
      end
  end.

(** ** The example of the source: [foo] *)

Definition foo : py_function := {|
  name := "foo";
  signature :=
    [("age", {| annotation := TyInt; param_default := None;
          kind := POSITIONAL_OR_KEYWORD |});
     ("name", {| annotation := TyStr; param_default := None;
          kind := POSITIONAL_OR_KEYWORD |});
     ("image_url", {| annotation := TyStr;
                      param_default := Some (VStr "http://placekitten.com/120/120");
          kind := POSITIONAL_OR_KEYWORD |})];
  body := fun _ => emit (st_write "Here's a picture")
|}.

(** ** Reading the screen *)

Definition widget_calls (screen : list event) : list widget_call :=
  omap (fun e => match e with
                 | st_widget w => Some w
                 | _ => None
                 end) screen.

(** The widget [w] is rendered with [v] as its initial value; a selector
    is rendered with the position of [v] among its options. *)
Definition shows (w : widget_call) (v : value) : Prop :=
  match w with
  | st_text_input _ x | st_number_input _ _ x | st_color_picker _ x
  | st_keyup _ x | st_checkbox _ x => x = v
  | st_selectbox _ options idx => tuple_index options v = Ok idx
  end.

Definition is_color_picker (w : widget_call) : bool :=
  match w with
  | st_color_picker _ _ => true
  | _ => false
  end.

(** The annotations with a branch of their own in the loop: no annotation,
    [int], [float], [str], [bool], [pd.DataFrame], and whatever the test
    of line 131 sends to the literal branch. *)
Definition supported (h : hint) : bool :=
  match h with
  | TyEmpty | TyInt | TyFloat | TyStr | TyBool | TyDataFrame => true
  | _ => str_startswith_typing_Literal h
  end.

(** The four annotations whose widget takes a plain value. *)
Definition plain (h : hint) : bool :=
  match h with
  | TyInt | TyFloat | TyStr | TyBool => true
  | _ => false
  end.

(** No override reaches the parameters of [func]. *)
Definition no_override
    (default_arguments : option (gmap string value)) (func : py_function) : Prop :=
  match default_arguments with
  | Some overrides => ∀ kv, kv ∈ signature func → overrides !! kv.1 = None
  | None => True
  end.

(** ** Functions and sessions used as concrete inputs *)

(** [def resize(width: int = 5)]. *)
Definition resize : py_function := {|
  name := "resize";
  signature := [("width", {| annotation := TyInt; param_default := Some (VInt 5);
          kind := POSITIONAL_OR_KEYWORD |})];
  body := fun _ => ret tt
|}.

(** [def scale(factor: float)]. *)
Definition scale : py_function := {|
  name := "scale";
  signature := [("factor", {| annotation := TyFloat; param_default := None;
          kind := POSITIONAL_OR_KEYWORD |})];
  body := fun _ => ret tt
|}.

(** [def show(df: pd.DataFrame)]. *)
Definition show : py_function := {|
  name := "show";
  signature := [("df", {| annotation := TyDataFrame; param_default := None;
          kind := POSITIONAL_OR_KEYWORD |})];
  body := fun _ => ret tt
|}.

(** [def paint(fill_color: str)]. *)
Definition paint : py_function := {|
  name := "paint";
  signature := [("fill_color", {| annotation := TyStr; param_default := None;
          kind := POSITIONAL_OR_KEYWORD |})];
  body := fun _ => ret tt
|}.


(** [def tags(names: "list[str]")] on a runtime that leaves the annotation
    a string: an object without [__name__]. *)
Definition tags : py_function := {|
  name := "tags";
  signature := [("names", {| annotation := TyOther None "list[str]";
                             param_default := None;
          kind := POSITIONAL_OR_KEYWORD |})];
  body := fun _ => ret tt
|}.

(** [def fail(n: int = 1)], whose body raises. *)
Definition fail : py_function := {|
  name := "fail";
  signature := [("n", {| annotation := TyInt; param_default := Some (VInt 1);
          kind := POSITIONAL_OR_KEYWORD |})];
  body := fun _ => raise (Raised "fail")
|}.

(** [def blank(count: int = 0, ratio: float = 0.0, title: str = "",
    flag: bool = False)]. *)
Definition blank : py_function := {|
  name := "blank";
  signature :=
    [("count", {| annotation := TyInt; param_default := Some (VInt 0);
          kind := POSITIONAL_OR_KEYWORD |});
     ("ratio", {| annotation := TyFloat;
                  param_default := Some (VFloat (S754_zero false));
          kind := POSITIONAL_OR_KEYWORD |});
     ("title", {| annotation := TyStr; param_default := Some (VStr "");
          kind := POSITIONAL_OR_KEYWORD |});
     ("flag", {| annotation := TyBool; param_default := Some (VBool false);
          kind := POSITIONAL_OR_KEYWORD |})];
  body := fun _ => ret tt
|}.

(** The float [3.5]. *)
Definition three_point_five : spec_float :=
  S754_finite false 7881299347898368 (-51).

(** A user who sets every widget to [v]. *)
Definition sets_to (v : value) (w : widget_call) : result value := Ok v.

(** ** Further observations and inputs *)

(** The label a widget is rendered with. *)
Definition widget_label (w : widget_call) : string :=
  match w with
  | st_text_input label _ | st_number_input label _ _ | st_color_picker label _
  | st_keyup label _ | st_checkbox label _ | st_selectbox label _ _ => label
  end.

(** The label of lines 70 and 90: the name, a star when the declared
    default is empty, the name of the type when there is an annotation. *)
Definition label_of (a : Argument) : string :=
  let label := match default a with
               | Some _ => argument a
               | None => argument a ++ "*"
               end in
  match strip_optional (type_hint a) with
  | TyEmpty => label
  | h => match hint_name h with
         | Some type_name => label ++ " (" ++ type_name ++ ")"
         | None => label
         end
  end.

(** The annotations whose branch calls a widget: the supported ones but
    [pd.DataFrame]. *)
Definition draws_widget (h : hint) : bool :=
  match h with
  | TyDataFrame => false
  | _ => supported h
  end.

(** Whether the branch taken for an annotation (after lines 75-79) and a
    default (after lines 72-73) calls [get_arg_from_session_state]. *)
Definition consults_store (h : hint) (d : option value) : bool :=
  match h with
  | TyEmpty => bool_decide (is_Some d)
  | _ =>
      match hint_name h with
      | None => false
      | Some _ =>
          match h with
          | TyInt | TyDataFrame => true
          | TyFloat | TyStr | TyBool => bool_decide (is_Some d)
          | _ => str_startswith_typing_Literal h && bool_decide (is_Some d)
          end
      end
  end.

(** The supported set as the specification lists it: no annotation,
    [int], [float], [str], [bool], [pd.DataFrame] and literals of
    options. *)
Definition in_supported_set (h : hint) : bool :=
  match h with
  | TyEmpty | TyInt | TyFloat | TyStr | TyBool | TyDataFrame | TyLiteral _ => true
  | _ => false
  end.

(** The annotation [int | None] where the [|] of two types builds a
    [types.UnionType] (Python 3.10 to 3.13): not an instance of the
    [UnionType] of line 14, and without [__name__]. *)
Definition int_bar_None : hint := TyOther None "int | None".

(** [typing.LiteralString]: not a literal of options, with a [__name__],
    printed as ["typing.LiteralString"]. *)
Definition LiteralString : hint :=
  TyOther (Some "LiteralString") "typing.LiteralString".

(** [def square(x: int, /)]. *)
Definition square : py_function := {|
  name := "square";
  signature := [("x", {| annotation := TyInt; param_default := None;
                         kind := POSITIONAL_ONLY |})];
  body := fun _ => ret tt
|}.

(** [def query(sql: LiteralString)]. *)
Definition query : py_function := {|
  name := "query";
  signature := [("sql", {| annotation := LiteralString; param_default := None;
                           kind := POSITIONAL_OR_KEYWORD |})];
  body := fun _ => ret tt
|}.

(** [def resize(width: int = 5, height: int = 3)], a later version of
    [resize] under the same name. *)
Definition resize_both : py_function := {|
  name := "resize";
  signature :=
    [("width", {| annotation := TyInt; param_default := Some (VInt 5);
          kind := POSITIONAL_OR_KEYWORD |});
     ("height", {| annotation := TyInt; param_default := Some (VInt 3);
          kind := POSITIONAL_OR_KEYWORD |})];
  body := fun _ => ret tt
|}.

(** [def pay(price: Decimal)]. *)
Definition pay : py_function := {|
  name := "pay";
  signature :=
    [("price", {| annotation := TyOther (Some "Decimal") "<class 'decimal.Decimal'>";
                  param_default := None;
          kind := POSITIONAL_OR_KEYWORD |})];
  body := fun _ => ret tt
|}.

(** ** The example of the source *)

Example foo_first_render :
  render_inputs untouched ∅ foo None =
  ([st_write "##### Inputs";
    st_write "Go ahead and play with `foo` parameters, see how they change the output!";
    st_widget (st_number_input "age* (int)" (Some 1%Z) (VInt 12));
    st_widget (st_keyup "name* (str)" (VStr "Sample string"));
    st_widget (st_keyup "image_url (str)" (VStr "http://placekitten.com/120/120"))],
   Ok [("age", VInt 12); ("name", VStr "Sample string");
       ("image_url", VStr "http://placekitten.com/120/120")]).
Proof. reflexivity. Qed.

Example resize_remembered :
  (function_explorer (sets_to (VInt 9)) ∅ resize None).1 !! "resize"
  = Some {["inputs" := [("width", VInt 9)]]}.
Proof. vm_compute. reflexivity. Qed.

(** ** Basic facts *)

Lemma append_assoc (s t u : string) : (s ++ t) ++ u = s ++ t ++ u.
Proof.
  induction s as [|c s IH]; [reflexivity|].
  change (String c ((s ++ t) ++ u) = String c (s ++ t ++ u)).
  by rewrite IH.
Qed.

Lemma py_or_falsy (a b : value) : truth a = Ok false → py_or a b = Ok b.
Proof. unfold py_or. intros ->. reflexivity. Qed.

Lemma py_or_truthy (a b : value) : truth a = Ok true → py_or a b = Ok a.
Proof. unfold py_or. intros ->. reflexivity. Qed.

Lemma py_or_None (b : value) : py_or VNone b = Ok b.
Proof. reflexivity. Qed.

Lemma override_None (default_arguments : option (gmap string value)) k d :
  override default_arguments k d = None → d = None.
Proof.
  unfold override. destruct default_arguments as [m|]; [|done].
  case_decide; [done|]. destruct (m !! k); [discriminate|done].
Qed.

Lemma override_Some (m : gmap string value) k d v :
  m !! k = Some v → override (Some m) k d = Some v.
Proof.
  intros Hk. unfold override. case_decide as He.
  - rewrite He, lookup_empty in Hk. discriminate.
  - rewrite Hk. reflexivity.
Qed.

Lemma nothing_remembered (ss : session) fn arg :
  ss !! fn = None → get_arg_from_session_state ss fn arg = Ok VNone.
Proof. unfold get_arg_from_session_state. intros ->. reflexivity. Qed.


(** ** One argument *)

Section OneArgument.

Context (ui : widget_call → result value) (ss : session) (fn : string)
        (da : option (gmap string value)) (inputs : dict).

(** C6, as the code has it.  A parameter annotated [Optional[T]] (an
    instance of the [UnionType] of line 14 with two arguments, the second
    being [NoneType]) is rendered exactly as the same parameter
    annotated [T]: same widget, same label with the suffix of [T], same
    default and fallback, same exceptions. *)
Theorem optional_rendered_as_plain (arg : string) (T : hint) (d : option value)
    (n : option string) :
  strip_optional T = T →
  render_argument ui ss fn da inputs
    {| argument := arg; type_hint := TyUnion n [T; TyNoneType]; default := d |}
  = render_argument ui ss fn da inputs
    {| argument := arg; type_hint := T; default := d |}.
Proof.
  intros HT. unfold render_argument.
  cbn [argument type_hint default]. rewrite HT. reflexivity.
Qed.

(** C4, as the code has it.  An annotation outside the supported set
    whose text does not start with ["typing.Literal"] is not fatal when it
    has a [__name__]: a warning is shown and [inputs] is left as it was.
    Without [__name__] it stops the render with the exception of line
    92. *)
Theorem unsupported_annotation (a : Argument) :
  in_supported_set (strip_optional (type_hint a)) = false →
  str_startswith_typing_Literal (strip_optional (type_hint a)) = false →
  render_argument ui ss fn da inputs a =
  match hint_name (strip_optional (type_hint a)) with
  | Some _ => ([st_warning (strip_optional (type_hint a))], Ok inputs)
  | None => ([], Err (Exception "Not sure how to handle"))
  end.
Proof.
  intros Hset Hlit. unfold render_argument.
  destruct (strip_optional (type_hint a)) as [| | | | | | | opts | n args | n shown];
    try discriminate Hset; cbn in Hlit |- *.
  - reflexivity.
  - destruct n; reflexivity.
  - destruct n; [|reflexivity]. cbn. rewrite Hlit. reflexivity.
Qed.

(** C7.  A [str] parameter whose name ends in [_color] gets the colour
    picker and no other widget; without override and declared default the
    picker starts at ["#000000"], whatever the session remembers. *)
Theorem color_argument_gets_color_picker (a : Argument) :
  strip_optional (type_hint a) = TyStr →
  endswith (argument a) "_color" = true →
  let out := render_argument ui ss fn da inputs a in
  ((∃ label v, out.1 = [st_widget (st_color_picker label v)])
   ∨ (out.1 = [] ∧ ∃ e, out.2 = Err e))
  ∧ (∀ w, st_widget w ∈ out.1 → is_color_picker w = true)
  ∧ (override da (argument a) (default a) = None →
     out.1 = [st_widget (st_color_picker (argument a ++ "* (str)") (VStr "#000000"))]).
Proof.
  intros Hh Hc. unfold render_argument. rewrite Hh. cbn [hint_name].
  rewrite Hc. cbv zeta.
  destruct (override da (argument a) (default a)) as [d|] eqn:Hov.
  - cbn [remembered_or_default_if_any].
    destruct (remembered_or ss fn (argument a) d) as [v|e]; cbn.
    + destruct (ui _); cbn.
      all: split; [left; eauto|split; [|done]].
      all: intros w Hw; apply list_elem_of_singleton in Hw; by inversion Hw.
    + split; [right; eauto|split; [|done]].
      intros w Hw. by apply elem_of_nil in Hw.
  - apply override_None in Hov as Hd. rewrite Hd. cbn.
    destruct (ui _); cbn.
    all: split; [left; eauto|split].
    all: try (intros w Hw; apply list_elem_of_singleton in Hw; by inversion Hw).
    all: intros _; by rewrite append_assoc.
Qed.

End OneArgument.

Lemma remembered_or_eq (ss : session) fn arg (r d : value) (t : bool) :
  get_arg_from_session_state ss fn arg = Ok r →
  truth r = Ok t →
  remembered_or ss fn arg d = Ok (if t then r else d).
Proof.
  intros Hr Ht. unfold remembered_or, py_or. rewrite Hr. cbn. rewrite Ht.
  reflexivity.
Qed.

Lemma bind_fails {A B} (m : io A) (k : A → io B) out e :
  m = (out, Err e) → bind m k = (out, Err e).
Proof. intros ->. reflexivity. Qed.

Lemma bind_inv_Ok {A B} (m : io A) (k : A → io B) out b :
  bind m k = (out, Ok b) →
  ∃ out1 a out2, m = (out1, Ok a) ∧ k a = (out2, Ok b) ∧ out = (out1 ++ out2)%list.
Proof.
  destruct m as [out1 [a|e]]; cbn; [|discriminate].
  destruct (k a) as [out2 r] eqn:Hk. intros [= <- ->]. eauto 6.
Qed.

Lemma for_each_fails {A S} (body : S → A → io S) (xs : list A) (x : A) (s : S) :
  x ∈ xs →
  (∀ s', ∃ out e, body s' x = (out, Err e)) →
  ∃ out e, for_each body xs s = (out, Err e).
Proof.
  intros Hin Hx. revert s.
  induction xs as [|y rest IH]; intros s; [by apply elem_of_nil in Hin|].
  cbn. apply elem_of_cons in Hin as [<- | Hin].
  - destruct (Hx s) as (out & e & ->). cbn. eauto.
  - destruct (body s y) as [out [s'|e]]; cbn; [|eauto].
    destruct (IH Hin s') as (out' & e & ->). eauto.
Qed.

Section Precedence.

Context (ui : widget_call → result value) (ss : session) (fn : string)
        (inputs : dict).

(** C1, as the code has it.  An override [v] for an argument replaces the
    declared default and the fallback of the type: the widget is rendered
    with [v] when nothing truthy is remembered for the argument.  A truthy
    remembered value [r] is used in place of the override. *)
Theorem override_replaces_declared_default
    (a : Argument) (overrides : gmap string value) (v r : value) (t : bool) :
  overrides !! argument a = Some v →
  get_arg_from_session_state ss fn (argument a) = Ok r →
  truth r = Ok t →
  let out := render_argument ui ss fn (Some overrides) inputs a in
  (∀ w, st_widget w ∈ out.1 → shows w (if t then r else v))
  ∧ (strip_optional (type_hint a) = TyEmpty
     ∨ plain (strip_optional (type_hint a)) = true →
     ∃ w, out.1 = [st_widget w]).
Proof.
  intros Hov Hr Ht. unfold render_argument.
  rewrite (override_Some _ _ _ _ Hov).
  unfold remembered_or_default_if_any, remembered_or_default_or.
  rewrite !(remembered_or_eq _ _ _ _ _ _ Hr Ht).
  set (x := if t then r else v).
  destruct (strip_optional (type_hint a)) as [| | | | | | | opts | n args | n shown];
    cbn [hint_name plain].
  all: try (destruct n as [tn|]).
  all: try destruct (endswith (argument a) "_color").
  all: try destruct (str_startswith_typing_Literal _).
  all: cbn [lift bind ret widget emit raise get_args fst snd].
  all: try destruct (tuple_index _ x) as [idx|e] eqn:Hidx.
  all: cbn [lift bind ret widget emit raise fst snd].
  all: try destruct (ui _).
  all: cbn [lift bind ret widget emit raise fst snd app].
  all: split; [intros w Hw|intros [?|?]; try discriminate; eauto].
  all: repeat (apply elem_of_cons in Hw as [Hw|Hw]; [inversion Hw; subst; try done|]).
  all: try (by apply elem_of_nil in Hw).
Qed.

End Precedence.

(** ** A whole run *)

Lemma function_explorer_fails ui (ss : session) func da out e :
  render_inputs ui ss func da = (out, Err e) →
  function_explorer ui ss func da = (ss, (out, Err e)).
Proof.
  intros H. unfold function_explorer, render_and_call. rewrite H. reflexivity.
Qed.



(** C10.  When the call of [func] raises, the session store after
    [function_explorer] is the store before it: no record is created for
    the function and the remembered inputs are not replaced. *)
Theorem failed_call_leaves_session ui (ss : session) func da screen inputs out e :
  render_inputs ui ss func da = (screen, Ok inputs) →
  call func inputs = (out, Err e) →
  function_explorer ui ss func da
  = (ss, ((screen ++ st_write "##### Output" :: out)%list, Err e)).
Proof.
  intros Hr Hc. unfold function_explorer, render_and_call.
  rewrite Hr. cbn [bind emit]. rewrite Hc. cbn. reflexivity.
Qed.

(** After a run that returns, the record under the function's name holds
    the inputs the function was called with. *)
Lemma remember_lookup (ss : session) fn inputs :
  ∃ record, remember ss fn inputs !! fn = Some record
            ∧ record !! "inputs" = Some inputs.
Proof.
  unfold remember. destruct (ss !! fn) as [record|] eqn:Hfn.
  - rewrite Hfn. eexists. rewrite lookup_insert_eq. split; [reflexivity|].
    apply lookup_insert_eq.
  - rewrite lookup_insert_eq. eexists. rewrite lookup_insert_eq.
    split; [reflexivity|]. apply lookup_insert_eq.
Qed.

Lemma remembered_after_run (ss : session) fn inputs arg :
  get_arg_from_session_state (remember ss fn inputs) fn arg
  = match dict_get inputs arg with
    | Some v => Ok v
    | None => Err (KeyError arg)
    end.
Proof.
  destruct (remember_lookup ss fn inputs) as (record & Hrec & Hin).
  unfold get_arg_from_session_state. rewrite Hrec, Hin. reflexivity.
Qed.

Lemma function_explorer_returns ui (ss : session) func da ss' screen :
  function_explorer ui ss func da = (ss', (screen, Ok tt)) →
  ∃ out inputs out', render_inputs ui ss func da = (out, Ok inputs)
    ∧ call func inputs = (out', Ok tt)
    ∧ ss' = remember ss (name func) inputs.
Proof.
  unfold function_explorer, render_and_call.
  destruct (render_inputs ui ss func da) as [out [inputs|e]]; cbn; [|discriminate].
  destruct (call func inputs) as [out' [[]|e]] eqn:Hcall; cbn; [|discriminate].
  intros [= <- <-]. by eexists out, inputs, out'.
Qed.

(** ** The order of the inputs *)

#[local] Set Warnings "-clear-no-such-hyp".

Lemma dict_get_keys (d : dict) k : dict_mem d k = true ↔ k ∈ dict_keys d.
Proof.
  unfold dict_mem, dict_keys. induction d as [|[k' v'] rest IH]; cbn.
  - split; [discriminate|]. intros H. by apply elem_of_nil in H.
  - destruct (String.eqb k' k) eqn:Hk.
    + apply String.eqb_eq in Hk as ->. split; [left|done].
    + apply String.eqb_neq in Hk. rewrite IH. split; [by right|].
      intros [?|?]%elem_of_cons; [congruence|done].
Qed.

Lemma dict_keys_set (d : dict) k v :
  dict_keys (dict_set d k v)
  = if dict_mem d k then dict_keys d else (dict_keys d ++ [k])%list.
Proof.
  unfold dict_mem, dict_keys. induction d as [|[k' v'] rest IH]; cbn; [reflexivity|].
  destruct (String.eqb k' k) eqn:Hk; cbn; [reflexivity|].
  rewrite IH. by destruct (dict_get rest k).
Qed.

Lemma dict_set_fresh (d : dict) k v :
  k ∉ dict_keys d → dict_set d k v = (d ++ [(k, v)])%list.
Proof.
  unfold dict_keys. induction d as [|[k' v'] rest IH]; cbn; [reflexivity|].
  intros Hk. apply not_elem_of_cons in Hk as [Hne Hk].
  destruct (String.eqb k' k) eqn:He.
  - apply String.eqb_eq in He. congruence.
  - by rewrite IH.
Qed.

(** What a step that returns has done to [inputs]: one entry set for an
    annotation with a branch of its own, nothing otherwise. *)
Lemma render_argument_returns ui (ss : session) fn da inputs a out inputs' :
  render_argument ui ss fn da inputs a = (out, Ok inputs') →
  if supported (strip_optional (type_hint a))
  then ∃ v, inputs' = dict_set inputs (argument a) v
  else inputs' = inputs.
Proof.
  unfold render_argument.
  destruct (strip_optional (type_hint a)) as [| | | | | | | opts | n args | n shown];
    cbn [hint_name supported str_startswith_typing_Literal].
  all: try (destruct n as [tn|]).
  all: try destruct (endswith (argument a) "_color").
  all: try destruct (String.prefix "typing.Literal" shown).
  all: cbv zeta.
  all: repeat (cbn [lift bind ret raise emit widget];
               match goal with
               | |- context [match ?r with Ok _ => _ | Err _ => _ end] => destruct r
               end).
  all: cbn [lift bind ret raise emit widget].
  all: intros [= <- <-] || discriminate 1 || idtac.
  all: eauto.
Qed.

Lemma for_each_keys ui (ss : session) fn da (args : list Argument) :
  ∀ acc out inputs,
  for_each (render_argument ui ss fn da) args acc = (out, Ok inputs) →
  ∃ ks, dict_keys inputs = (dict_keys acc ++ ks)%list
        ∧ ks `sublist_of` map argument args
        ∧ ∀ k, k ∈ dict_keys inputs ↔
               k ∈ dict_keys acc
               ∨ ∃ a, a ∈ args ∧ argument a = k
                      ∧ supported (strip_optional (type_hint a)) = true.
Proof.
  induction args as [|a rest IH]; intros acc out inputs Hrun.
  - cbn in Hrun. injection Hrun as <- <-. exists []. rewrite app_nil_r.
    split; [done|]. split; [constructor|].
    intros k. split; [by left|]. intros [?|(a & Ha & _)]; [done|].
    by apply elem_of_nil in Ha.
  - cbn [for_each] in Hrun.
    apply bind_inv_Ok in Hrun as (o1 & s' & o2 & Hstep & Hrest & _).
    apply IH in Hrest as (ks & Hkeys & Hsub & Hmem).
    apply render_argument_returns in Hstep.
    destruct (supported (strip_optional (type_hint a))) eqn:Hsup.
    + destruct Hstep as [v ->]. rewrite dict_keys_set in Hkeys, Hmem.
      destruct (dict_mem acc (argument a)) eqn:Hm.
      * apply dict_get_keys in Hm.
        exists ks. split; [done|]. split; [by constructor|].
        intros k. rewrite Hmem. setoid_rewrite elem_of_cons. naive_solver.
      * exists (argument a :: ks). split; [by rewrite Hkeys, <- app_assoc|].
        split; [by constructor|].
        intros k. rewrite Hmem, elem_of_app, list_elem_of_singleton.
        setoid_rewrite elem_of_cons. naive_solver.
    + subst s'. exists ks. split; [done|]. split; [by constructor|].
      intros k. rewrite Hmem. setoid_rewrite elem_of_cons. split.
      * intros [?|(b & Hb & ? & ?)]; [by left|]. right. exists b. eauto.
      * intros [?|(b & [-> | Hb] & Hk & Hs)]; [by left|congruence|right; eauto].
Qed.

(** C9.  The keys of the inputs of a rendered form follow the declaration
    order of the parameters: they are a subsequence of the parameter names,
    and a name is among them exactly when a parameter of that name has an
    annotation with a branch of its own. *)
Theorem inputs_follow_declaration_order ui (ss : session) func da screen inputs :
  render_inputs ui ss func da = (screen, Ok inputs) →
  dict_keys inputs `sublist_of` map fst (signature func)
  ∧ ∀ k, k ∈ dict_keys inputs ↔
         ∃ p, (k, p) ∈ signature func
              ∧ supported (strip_optional (annotation p)) = true.
Proof.
  unfold render_inputs. cbn [emit bind].
  destruct (for_each _ _ _) as [out r] eqn:Hloop. intros [= _ ->].
  apply for_each_keys in Hloop as (ks & Hkeys & Hsub & Hmem).
  cbn in Hkeys. rewrite Hkeys. unfold get_arg_details in Hsub, Hmem.
  rewrite <- list_fmap_compose in Hsub. split; [exact Hsub|].
  intros k. rewrite <- Hkeys, Hmem. split.
  - intros [Hk|(a & Ha & <- & Hs)]; [by apply elem_of_nil in Hk|].
    apply list_elem_of_fmap in Ha as ([k' p] & -> & Hin). eauto.
  - intros (p & Hin & Hs). right.
    exists {| argument := k; type_hint := annotation p; default := param_default p |}.
    split; [|done]. apply list_elem_of_fmap. by exists (k, p).
Qed.

(** ** First render *)

Lemma widget_calls_app (s1 s2 : list event) :
  widget_calls (s1 ++ s2) = (widget_calls s1 ++ widget_calls s2)%list.
Proof. apply omap_app. Qed.

Lemma plain_not_optional (h : hint) : plain h = true → strip_optional h = h.
Proof. by destruct h. Qed.

Lemma override_absent da k (d : option value) :
  match da with
  | Some overrides => overrides !! k = None
  | None => True
  end →
  override da k d = d.
Proof.
  unfold override. destruct da as [m|]; [|done]. intros ->. by case_decide.
Qed.

(** One step of the first render of a typed parameter with a default. *)
Lemma render_declared_default (ss : session) fn da inputs (a : Argument) (d : value) :
  plain (type_hint a) = true →
  default a = Some d →
  override da (argument a) (default a) = default a →
  ss !! fn = None →
  ∃ w, render_argument untouched ss fn da inputs a
       = ([st_widget w], Ok (dict_set inputs (argument a) d))
       ∧ shows w d.
Proof.
  intros Hp Hd Hov Hss. unfold render_argument.
  rewrite Hov, Hd, (plain_not_optional _ Hp).
  unfold remembered_or_default_if_any, remembered_or_default_or, remembered_or.
  rewrite (nothing_remembered _ _ _ Hss).
  destruct (type_hint a); try discriminate Hp; cbn [hint_name rbind].
  all: rewrite py_or_None.
  all: try destruct (endswith (argument a) "_color").
  all: cbn; eexists; split; reflexivity.
Qed.

Lemma first_render_loop (ss : session) fn da (args : list Argument) :
  ss !! fn = None →
  ∀ acc,
  NoDup (map argument args) →
  (∀ a, a ∈ args →
        (argument a ∉ dict_keys acc)
        ∧ plain (type_hint a) = true
        ∧ is_Some (default a)
        ∧ override da (argument a) (default a) = default a) →
  ∃ screen new,
    for_each (render_argument untouched ss fn da) args acc
    = (screen, Ok (acc ++ new)%list)
    ∧ Forall2 (fun a kv => kv.1 = argument a ∧ default a = Some kv.2) args new
    ∧ Forall2 (fun a w => ∃ d, default a = Some d ∧ shows w d)
              args (widget_calls screen).
Proof.
  intros Hss. induction args as [|a rest IH]; intros acc Hnd Hall.
  - exists [], []. rewrite app_nil_r. by repeat split; constructor.
  - cbn in Hnd. apply NoDup_cons in Hnd as [Hfresh Hnd].
    destruct (Hall a) as (Hacc & Hp & [d Hd] & Hov); [left|].
    destruct (render_declared_default ss fn da acc a d Hp Hd Hov Hss)
      as (w & Hstep & Hw).
    rewrite (dict_set_fresh _ _ _ Hacc) in Hstep.
    destruct (IH (acc ++ [(argument a, d)])%list Hnd) as (screen & new & Hrun & Hin & Hws).
    { intros b Hb. destruct (Hall b) as (Hbacc & ? & ? & ?); [by right|].
      split; [|done]. unfold dict_keys in *.
      rewrite fmap_app, elem_of_app. cbn. rewrite list_elem_of_singleton.
      intros [?|Heq]; [done|]. apply Hfresh. rewrite <- Heq.
      by apply list_elem_of_fmap_2. }
    exists (st_widget w :: screen), ((argument a, d) :: new).
    cbn [for_each]. rewrite Hstep. cbn [bind]. rewrite Hrun.
    rewrite <- app_assoc. cbn. split; [done|].
    split; constructor; eauto.
Qed.

(** C3.  On the first render of a function whose parameters are all typed
    [int], [float], [str] or [bool] and all have a default, with no
    override, every parameter gets one widget, in order, rendered with the
    declared default, and the inputs of an untouched form map every
    parameter to its declared default, falsy or not. *)
Theorem first_render_uses_declared_defaults (ss : session) func da :
  NoDup (map fst (signature func)) →
  (∀ kv, kv ∈ signature func →
         plain (annotation kv.2) = true ∧ is_Some (param_default kv.2)) →
  no_override da func →
  ss !! name func = None →
  ∃ screen inputs,
    render_inputs untouched ss func da = (screen, Ok inputs)
    ∧ Forall2 (fun kv iv => iv.1 = kv.1 ∧ param_default kv.2 = Some iv.2)
              (signature func) inputs
    ∧ Forall2 (fun kv w => ∃ d, param_default kv.2 = Some d ∧ shows w d)
              (signature func) (widget_calls screen).
Proof.
  intros Hnd Hall Hno Hss.
  destruct (first_render_loop ss (name func) da (get_arg_details func) Hss [])
    as (screen & new & Hrun & Hin & Hws).
  { unfold get_arg_details. by rewrite <- list_fmap_compose. }
  { intros a Ha. unfold get_arg_details in Ha.
    apply list_elem_of_fmap in Ha as (kv & -> & Hkv). cbn.
    destruct (Hall kv Hkv) as [Hp Hd]. split; [apply not_elem_of_nil|].
    split; [done|]. split; [done|]. apply override_absent.
    unfold no_override in Hno. destruct da; [by apply Hno|done]. }
  unfold render_inputs. cbn [emit bind]. rewrite Hrun. cbn.
  eexists _, new. split; [reflexivity|].
  unfold get_arg_details in Hin, Hws.
  apply Forall2_fmap_l in Hin. apply Forall2_fmap_l in Hws.
  split; [exact Hin|exact Hws].
Qed.

(** ** Second render *)

(** C2, on the code.  The record written after a run is the inputs of that
    run, but the next render does not give them back.  [resize(width: int
    = 5)]: the user chooses [0], [0] is remembered, and the next untouched
    render calls the function with [5].  [scale(factor: float)]: the user
    chooses [3.5], [3.5] is remembered, and the next untouched render calls
    the function with [12.0]. *)
Theorem remembered_inputs_not_reproduced :
  let run1 := function_explorer (sets_to (VInt 0)) ∅ resize None in
  let run2 := function_explorer untouched run1.1 resize None in
  let run1' := function_explorer (sets_to (VFloat three_point_five)) ∅ scale None in
  let run2' := function_explorer untouched run1'.1 scale None in
  (run1.2.2 = Ok tt
   ∧ run1.1 !! "resize" = Some {["inputs" := [("width", VInt 0)]]}
   ∧ run2.2.2 = Ok tt
   ∧ run2.1 !! "resize" = Some {["inputs" := [("width", VInt 5)]]})
  ∧ (run1'.2.2 = Ok tt
     ∧ run1'.1 !! "scale" = Some {["inputs" := [("factor", VFloat three_point_five)]]}
     ∧ run2'.2.2 = Ok tt
     ∧ run2'.1 !! "scale" = Some {["inputs" := [("factor", VFloat twelve_point_zero)]]}).
Proof. vm_compute. repeat split; reflexivity. Qed.

(** C8, on the code.  [show(df: pd.DataFrame)]: the first render calls
    the function with the placeholder table and remembers it; on the next
    render the remembered table is the left operand of [or], its truth
    value raises [ValueError], and the run stops before the function is
    called. *)
Theorem remembered_table_breaks_next_render :
  let run1 := function_explorer untouched ∅ show None in
  let run2 := function_explorer untouched run1.1 show None in
  run1.2.2 = Ok tt
  ∧ run1.1 !! "show" = Some {["inputs" := [("df", placeholder_frame)]]}
  ∧ run2 = (run1.1,
            ([st_write "##### Inputs";
              st_write "Go ahead and play with `show` parameters, see how they change the output!"],
             Err ValueError)).
Proof. vm_compute. repeat split; reflexivity. Qed.

(** ** Where the code departs from the specification *)

(** C1 does not hold as stated: with [9] remembered for [width], the
    override [7] is not what the widget is rendered with. *)
Lemma override_loses_to_remembered_value :
  ¬ (∀ ui (ss : session) fn inputs (a : Argument)
       (overrides : gmap string value) (v : value) (w : widget_call),
       overrides !! argument a = Some v →
       st_widget w ∈ (render_argument ui ss fn (Some overrides) inputs a).1 →
       shows w v).
Proof.
  intros H.
  assert (Hs : shows (st_number_input "width (int)" (Some 1%Z) (VInt 9)) (VInt 7)).
  { apply (H untouched
             (function_explorer (sets_to (VInt 9)) ∅ resize None).1
             "resize" []
             {| argument := "width"; type_hint := TyInt; default := Some (VInt 5) |}
             {["width" := VInt 7]}).
    - vm_compute. reflexivity.
    - vm_compute. left. }
  discriminate Hs.
Qed.

(** C4 does not hold as stated: an annotation outside the supported set
    and without [__name__] raises. *)
Lemma annotation_without_name_raises :
  ¬ (∀ ui (ss : session) fn da inputs (a : Argument),
       in_supported_set (strip_optional (type_hint a)) = false →
       ∃ screen, render_argument ui ss fn da inputs a = (screen, Ok inputs)).
Proof.
  intros H.
  destruct (H untouched ∅ "tags" None []
              {| argument := "names"; type_hint := TyOther None "list[str]";
                 default := None |}) as [screen Hs]; [reflexivity|].
  discriminate Hs.
Qed.

(** C6 does not hold as stated: [int | None], where it is not an instance
    of the [UnionType] of line 14, is not rendered as [int]; the render
    stops at line 92. *)
Lemma bar_union_is_not_rendered_as_plain :
  render_argument untouched ∅ "foo" None []
    {| argument := "age"; type_hint := int_bar_None; default := None |}
  = ([], Err (Exception "Not sure how to handle"))
  ∧ render_argument untouched ∅ "foo" None []
      {| argument := "age"; type_hint := int_bar_None; default := None |}
    ≠ render_argument untouched ∅ "foo" None []
        {| argument := "age"; type_hint := TyInt; default := None |}.
Proof. split; [reflexivity|discriminate]. Qed.

(** ** The theorems at concrete inputs *)

Lemma optional_rendered_as_plain_at_age :
  strip_optional TyInt = TyInt
  ∧ render_argument untouched ∅ "foo" None []
      {| argument := "age";
         type_hint := TyUnion (Some "Optional") [TyInt; TyNoneType];
         default := None |}
    = render_argument untouched ∅ "foo" None []
      {| argument := "age"; type_hint := TyInt; default := None |}.
Proof.
  split; [reflexivity|].
  apply (optional_rendered_as_plain untouched ∅ "foo" None [] "age" TyInt None
           (Some "Optional")).
  reflexivity.
Defined.

Lemma unsupported_annotation_at_decimal :
  let a := {| argument := "price";
              type_hint := TyOther (Some "Decimal") "<class 'decimal.Decimal'>";
              default := None |} in
  in_supported_set (strip_optional (type_hint a)) = false
  ∧ str_startswith_typing_Literal (strip_optional (type_hint a)) = false
  ∧ render_argument untouched ∅ "pay" None [] a
    = ([st_warning (TyOther (Some "Decimal") "<class 'decimal.Decimal'>")], Ok []).
Proof.
  split; [reflexivity|]. split; [reflexivity|].
  apply (unsupported_annotation untouched ∅ "pay" None []
           {| argument := "price";
              type_hint := TyOther (Some "Decimal") "<class 'decimal.Decimal'>";
              default := None |});
    reflexivity.
Defined.

Lemma color_argument_gets_color_picker_at_paint :
  let a := {| argument := "fill_color"; type_hint := TyStr; default := None |} in
  let out := render_argument untouched ∅ "paint" None [] a in
  strip_optional (type_hint a) = TyStr
  ∧ endswith (argument a) "_color" = true
  ∧ ((∃ label v, out.1 = [st_widget (st_color_picker label v)])
     ∨ (out.1 = [] ∧ ∃ e, out.2 = Err e))
  ∧ (∀ w, st_widget w ∈ out.1 → is_color_picker w = true)
  ∧ (override None (argument a) (default a) = None →
     out.1 = [st_widget (st_color_picker (argument a ++ "* (str)") (VStr "#000000"))]).
Proof.
  split; [reflexivity|]. split; [reflexivity|].
  apply (color_argument_gets_color_picker untouched ∅ "paint" None []
           {| argument := "fill_color"; type_hint := TyStr; default := None |});
    reflexivity.
Defined.

Lemma override_replaces_declared_default_at_resize :
  let a := {| argument := "width"; type_hint := TyInt; default := Some (VInt 5) |} in
  let ss := remember ∅ "resize" [("width", VInt 0)] in
  let overrides : gmap string value := {["width" := VInt 7]} in
  let out := render_argument untouched ss "resize" (Some overrides) [] a in
  overrides !! argument a = Some (VInt 7)
  ∧ get_arg_from_session_state ss "resize" (argument a) = Ok (VInt 0)
  ∧ truth (VInt 0) = Ok false
  ∧ (∀ w, st_widget w ∈ out.1 → shows w (VInt 7))
  ∧ (strip_optional (type_hint a) = TyEmpty
     ∨ plain (strip_optional (type_hint a)) = true →
     ∃ w, out.1 = [st_widget w]).
Proof.
  split; [vm_compute; reflexivity|].
  split; [vm_compute; reflexivity|].
  split; [reflexivity|].
  apply (override_replaces_declared_default untouched
           (remember ∅ "resize" [("width", VInt 0)]) "resize" []
           {| argument := "width"; type_hint := TyInt; default := Some (VInt 5) |}
           {["width" := VInt 7]} (VInt 7) (VInt 0) false).
  - vm_compute. reflexivity.
  - vm_compute. reflexivity.
  - reflexivity.
Defined.


Lemma failed_call_leaves_session_at_fail :
  function_explorer untouched ∅ fail None
  = (∅, ([st_write "##### Inputs";
          st_write "Go ahead and play with `fail` parameters, see how they change the output!";
          st_widget (st_number_input "n (int)" (Some 1%Z) (VInt 1));
          st_write "##### Output"],
         Err (Raised "fail"))).
Proof.
  apply (failed_call_leaves_session untouched ∅ fail None
           [st_write "##### Inputs";
            st_write "Go ahead and play with `fail` parameters, see how they change the output!";
            st_widget (st_number_input "n (int)" (Some 1%Z) (VInt 1))]
           [("n", VInt 1)] [] (Raised "fail")).
  - vm_compute. reflexivity.
  - vm_compute. reflexivity.
Defined.

Lemma inputs_follow_declaration_order_at_foo :
  dict_keys [("age", VInt 12); ("name", VStr "Sample string");
             ("image_url", VStr "http://placekitten.com/120/120")]
    `sublist_of` map fst (signature foo)
  ∧ ∀ k, k ∈ dict_keys [("age", VInt 12); ("name", VStr "Sample string");
                        ("image_url", VStr "http://placekitten.com/120/120")] ↔
         ∃ p, (k, p) ∈ signature foo
              ∧ supported (strip_optional (annotation p)) = true.
Proof.
  eapply (inputs_follow_declaration_order untouched ∅ foo None).
  vm_compute. reflexivity.
Defined.

Lemma first_render_uses_declared_defaults_at_blank :
  ∃ screen inputs,
    render_inputs untouched ∅ blank None = (screen, Ok inputs)
    ∧ Forall2 (fun kv iv => iv.1 = kv.1 ∧ param_default kv.2 = Some iv.2)
              (signature blank) inputs
    ∧ Forall2 (fun kv w => ∃ d, param_default kv.2 = Some d ∧ shows w d)
              (signature blank) (widget_calls screen).
Proof.
  apply (first_render_uses_declared_defaults ∅ blank None).
  - cbn. repeat (apply NoDup_cons; split; [set_solver|]). apply NoDup_nil_2.
  - intros kv Hkv. cbn in Hkv.
    repeat (apply elem_of_cons in Hkv as [-> | Hkv];
            [split; [reflexivity|eexists; reflexivity]|]).
    by apply elem_of_nil in Hkv.
  - exact I.
  - reflexivity.
Defined.

Example blank_first_render :
  render_inputs untouched ∅ blank None =
  ([st_write "##### Inputs";
    st_write "Go ahead and play with `blank` parameters, see how they change the output!";
    st_widget (st_number_input "count (int)" (Some 1%Z) (VInt 0));
    st_widget (st_number_input "ratio (float)" None (VFloat (S754_zero false)));
    st_widget (st_keyup "title (str)" (VStr ""));
    st_widget (st_checkbox "flag (bool)" (VBool false))],
   Ok [("count", VInt 0); ("ratio", VFloat (S754_zero false));
       ("title", VStr ""); ("flag", VBool false)]).
Proof. vm_compute. reflexivity. Qed.

(** ** The session store *)

Lemma function_explorer_store ui (ss : session) func da :
  (function_explorer ui ss func da).1 = ss
  ∨ ∃ inputs, (function_explorer ui ss func da).1 = remember ss (name func) inputs.
Proof.
  unfold function_explorer.
  destruct (render_and_call ui ss func da) as [screen [inputs|e]]; cbn; eauto.
Qed.

Lemma remember_other (ss : session) fn inputs g :
  g ≠ fn → remember ss fn inputs !! g = ss !! g.
Proof.
  intros Hg. unfold remember. destruct (ss !! fn) as [record|] eqn:Hfn.
  - rewrite Hfn. by rewrite lookup_insert_ne.
  - rewrite lookup_insert_eq. by rewrite !lookup_insert_ne.
Qed.

(** X1.  What a run that returns has written can be read back: on the
    store it leaves, [get_arg_from_session_state] under the function's
    name returns the value the function was called with for every key of
    its inputs, and raises [KeyError] for any other argument name. *)
Theorem run_then_read_back ui (ss ss' : session) func da screen :
  function_explorer ui ss func da = (ss', (screen, Ok tt)) →
  ∃ shown inputs,
    render_inputs ui ss func da = (shown, Ok inputs)
    ∧ ∀ k, get_arg_from_session_state ss' (name func) k
           = match dict_get inputs k with
             | Some v => Ok v
             | None => Err (KeyError k)
             end.
Proof.
  intros Hrun.
  apply function_explorer_returns in Hrun as (shown & inputs & out & Hr & _ & ->).
  exists shown, inputs. split; [exact Hr|].
  intros k. apply remembered_after_run.
Qed.

(** X2.  A run touches the store under the function's own name only, and
    there only the key ["inputs"]: the records of all other functions and
    the other keys of its own record are as before, whether the run
    returns or raises. *)
Theorem run_keeps_rest_of_store ui (ss : session) func da :
  let ss' := (function_explorer ui ss func da).1 in
  (∀ g, g ≠ name func → ss' !! g = ss !! g)
  ∧ (∀ record, ss !! name func = Some record →
       ∃ record', ss' !! name func = Some record'
                  ∧ ∀ k, k ≠ "inputs" → record' !! k = record !! k).
Proof.
  cbv zeta. destruct (function_explorer_store ui ss func da) as [-> | [inputs ->]].
  - split; [done|]. intros record Hrec. by exists record.
  - split.
    + intros g Hg. by apply remember_other.
    + intros record Hrec. unfold remember. rewrite Hrec, Hrec.
      eexists. rewrite lookup_insert_eq. split; [reflexivity|].
      intros k Hk. by rewrite lookup_insert_ne.
Qed.

Lemma consults_store_cases (h : hint) (d : option value) :
  consults_store h d = true →
  h = TyInt ∨ h = TyDataFrame
  ∨ (∃ v, d = Some v
          ∧ (h = TyEmpty ∨ h = TyFloat ∨ h = TyStr ∨ h = TyBool
             ∨ (str_startswith_typing_Literal h = true
                ∧ plain h = false ∧ h ≠ TyEmpty ∧ h ≠ TyInt ∧ h ≠ TyDataFrame
                ∧ is_Some (hint_name h)))).
Proof.
  unfold consults_store.
  destruct h as [| | | | | | | opts | n args | n shown]; cbn;
    try destruct n as [tn|]; cbn; try discriminate; eauto.
  all: try (intros Hd; apply bool_decide_eq_true in Hd as [v ->];
            right; right; exists v; split; [done|]; by eauto 6).
  - intros Hd. apply bool_decide_eq_true in Hd as [v ->].
    right; right. exists v. split; [done|].
    do 4 right. repeat split; eauto; discriminate.
  - intros H. apply andb_true_iff in H as [Hl Hd].
    apply bool_decide_eq_true in Hd as [v ->].
    right; right. exists v. split; [done|].
    do 4 right. repeat split; eauto; discriminate.
Qed.

Section StoreAccess.

Context (ui : widget_call → result value) (da : option (gmap string value)).

(** X3.  A record that does not hold the argument is fatal: when inputs
    are remembered under the function's name without a key for an argument
    whose branch reads the store, the step raises [KeyError] before any
    widget is drawn, and the whole run ends in an exception with the store
    as it was. *)
Theorem stale_record_raises_KeyError
    (ss : session) func (a : Argument) (record : gmap string dict) (old : dict) :
  a ∈ get_arg_details func →
  ss !! name func = Some record →
  record !! "inputs" = Some old →
  dict_get old (argument a) = None →
  consults_store (strip_optional (type_hint a))
                 (override da (argument a) (default a)) = true →
  (∀ inputs, render_argument ui ss (name func) da inputs a
             = ([], Err (KeyError (argument a))))
  ∧ ∃ screen e, function_explorer ui ss func da = (ss, (screen, Err e)).
Proof.
  intros Hin Hss Hrec Hold Hc.
  assert (Hget : get_arg_from_session_state ss (name func) (argument a)
                 = Err (KeyError (argument a))).
  { unfold get_arg_from_session_state. by rewrite Hss, Hrec, Hold. }
  assert (Hstep : ∀ inputs, render_argument ui ss (name func) da inputs a
                            = ([], Err (KeyError (argument a)))).
  { intros inputs. unfold render_argument.
    apply consults_store_cases in Hc
      as [-> | [-> | (v & -> & [-> | [-> | [-> | [-> | (Hl & Hp & ? & ? & ? & [tn Hn])]]]])]];
      unfold remembered_or_default_if_any, remembered_or_default_or, remembered_or;
      rewrite ?Hget; cbn [hint_name rbind lift bind]; try reflexivity.
    - by destruct (endswith _ _).
    - rewrite Hn.
      destruct (strip_optional (type_hint a)); try done; rewrite Hl; reflexivity. }
  split; [exact Hstep|].
  destruct (for_each_fails (render_argument ui ss (name func) da)
              (get_arg_details func) a [] Hin) as (out & e & Hloop).
  { intros s'. rewrite Hstep. eauto. }
  eexists _, e. apply function_explorer_fails.
  unfold render_inputs. cbn [emit bind]. rewrite Hloop. reflexivity.
Qed.

(** X4.  A branch that does not read the store is blind to it: for a
    parameter without default and without override whose annotation is not
    [int] or [pd.DataFrame] (and for every unsupported annotation), the
    step is the same whatever the session remembers, under any name. *)
Theorem unread_store_is_irrelevant
    (ss ss' : session) (fn fn' : string) (inputs : dict) (a : Argument) :
  consults_store (strip_optional (type_hint a))
                 (override da (argument a) (default a)) = false →
  render_argument ui ss fn da inputs a = render_argument ui ss' fn' da inputs a.
Proof.
  unfold consults_store, render_argument.
  destruct (strip_optional (type_hint a)) as [| | | | | | | opts | n args | n shown];
    cbn [hint_name str_startswith_typing_Literal]; try destruct n as [tn|];
    try discriminate; try reflexivity.
  all: destruct (override da (argument a) (default a)) as [v|]; cbn;
       try discriminate; try reflexivity.
  all: try (by destruct (String.prefix "typing.Literal" shown)).
  all: intros H; apply andb_false_iff in H as [H|H]; try discriminate.
  all: by rewrite ?H.
Qed.

End StoreAccess.

(** ** A second render *)

Lemma dict_get_elem_of (d : dict) k v :
  NoDup (dict_keys d) → (k, v) ∈ d → dict_get d k = Some v.
Proof.
  unfold dict_keys. induction d as [|[k' v'] rest IH]; cbn; intros Hnd Hin.
  - by apply elem_of_nil in Hin.
  - apply NoDup_cons in Hnd as [Hk' Hnd].
    apply elem_of_cons in Hin as [[= -> ->]|Hin].
    + by rewrite String.eqb_refl.
    + destruct (String.eqb k' k) eqn:He; [|by apply IH].
      apply String.eqb_eq in He as ->. destruct Hk'.
      change k with (k, v).1. by apply list_elem_of_fmap_2.
Qed.

Lemma Forall2_elem_of_r {A B} (P : A → B → Prop) (l : list A) (k : list B) :
  Forall2 P l k → Forall2 (fun x y => P x y ∧ y ∈ k) l k.
Proof.
  intros H. cut (∀ k', k ⊆ k' → Forall2 (fun x y => P x y ∧ y ∈ k') l k).
  { intros Hc. by apply Hc. }
  induction H as [|x y l k Hxy H IH]; intros k' Hsub; constructor.
  - split; [done|]. apply Hsub. left.
  - apply IH. intros z Hz. apply Hsub. by right.
Qed.

(** A loop whose every step draws one widget and sets one fresh key. *)
Lemma for_each_sets ui (ss : session) fn da (args : list Argument) :
  ∀ (new acc : dict),
  NoDup (map argument args) →
  (∀ a, a ∈ args → argument a ∉ dict_keys acc) →
  Forall2 (fun a iv =>
             iv.1 = argument a
             ∧ ∀ acc', ∃ w, render_argument ui ss fn da acc' a
                            = ([st_widget w], Ok (dict_set acc' (argument a) iv.2))
                            ∧ shows w iv.2) args new →
  ∃ screen,
    for_each (render_argument ui ss fn da) args acc = (screen, Ok (acc ++ new)%list)
    ∧ Forall2 (fun iv w => shows w iv.2) new (widget_calls screen).
Proof.
  induction args as [|a rest IH]; intros new acc Hnd Hfresh Hall.
  - apply Forall2_nil_inv_l in Hall as ->. exists []. rewrite app_nil_r.
    split; [done|constructor].
  - apply Forall2_cons_inv_l in Hall as ([k v] & new' & (Hk & Hstep) & Hall & ->).
    cbn in Hk, Hstep. subst k.
    cbn in Hnd. apply NoDup_cons in Hnd as [Ha Hnd].
    destruct (Hstep acc) as (w & Hrun & Hw).
    rewrite dict_set_fresh in Hrun by (apply Hfresh; left).
    destruct (IH new' (acc ++ [(argument a, v)])%list Hnd) as (screen & Hrest & Hws).
    { intros b Hb. unfold dict_keys. rewrite fmap_app, elem_of_app. cbn.
      rewrite list_elem_of_singleton. intros [Hin|Heq].
      - by apply (Hfresh b); [right|].
      - apply Ha. rewrite <- Heq. by apply list_elem_of_fmap_2. }
    { exact Hall. }
    exists (st_widget w :: screen). cbn [for_each]. rewrite Hrun. cbn [bind].
    rewrite Hrest, <- app_assoc. cbn. split; [done|]. by constructor.
Qed.

(** One step when a truthy value is remembered for the argument. *)
Lemma render_remembered (ss : session) fn da acc (a : Argument) (r : value) :
  get_arg_from_session_state ss fn (argument a) = Ok r →
  truth r = Ok true →
  strip_optional (type_hint a) = TyEmpty ∨ plain (strip_optional (type_hint a)) = true →
  consults_store (strip_optional (type_hint a))
                 (override da (argument a) (default a)) = true →
  ∃ w, render_argument untouched ss fn da acc a
       = ([st_widget w], Ok (dict_set acc (argument a) r))
       ∧ shows w r.
Proof.
  intros Hget Ht Hh Hc. unfold render_argument.
  unfold remembered_or_default_if_any, remembered_or_default_or.
  destruct (strip_optional (type_hint a)) as [| | | | | | | opts | n args | n shown];
    destruct Hh as [Hh|Hh]; try discriminate Hh; cbn in Hc;
    cbn [hint_name].
  all: try (apply bool_decide_eq_true in Hc as [d ->]).
  all: rewrite (remembered_or_eq _ _ _ _ _ _ Hget Ht).
  all: try destruct (endswith (argument a) "_color").
  all: cbn; eexists; split; reflexivity.
Qed.

(** X5.  The round trip through the store, where the code has it.  For a
    function whose parameters are untyped or typed [int], [float], [str]
    or [bool], each of them [int] or with a default (declared or
    overridden): when the inputs remembered under its name hold a truthy
    value for every parameter, an untouched render draws every widget with
    the remembered value and yields exactly the remembered inputs,
    whatever the declared defaults and the overrides are. *)
Theorem truthy_inputs_are_reproduced (ss : session) func da (inputs : dict) :
  NoDup (map fst (signature func)) →
  Forall2 (fun kv iv =>
             iv.1 = kv.1
             ∧ truth iv.2 = Ok true
             ∧ (strip_optional (annotation kv.2) = TyEmpty
                ∨ plain (strip_optional (annotation kv.2)) = true)
             ∧ consults_store (strip_optional (annotation kv.2))
                              (override da kv.1 (param_default kv.2)) = true)
          (signature func) inputs →
  ∃ screen,
    render_inputs untouched (remember ss (name func) inputs) func da
    = (screen, Ok inputs)
    ∧ Forall2 (fun iv w => shows w iv.2) inputs (widget_calls screen).
Proof.
  intros Hnd Hall.
  assert (Hkeys : dict_keys inputs = map fst (signature func)).
  { unfold dict_keys. clear Hnd. induction Hall as [|kv iv l k (Hk & _) _ IH]; [done|].
    cbn. by rewrite Hk, IH. }
  assert (Hnd' : NoDup (dict_keys inputs)) by by rewrite Hkeys.
  apply Forall2_elem_of_r in Hall.
  destruct (for_each_sets untouched (remember ss (name func) inputs) (name func) da
              (get_arg_details func) inputs []) as (screen & Hrun & Hws).
  { unfold get_arg_details. by rewrite <- list_fmap_compose. }
  { intros a _. apply not_elem_of_nil. }
  { unfold get_arg_details. apply Forall2_fmap_l.
    eapply Forall2_impl; [exact Hall|]. cbn.
    intros [k p] [k' v] ((Hk & Ht & Hh & Hc) & Hin). cbn in *. subst k'.
    split; [done|]. intros acc'.
    apply (render_remembered _ _ _ _
             {| argument := k; type_hint := annotation p; default := param_default p |});
      try done.
    rewrite remembered_after_run. cbn [argument].
    by rewrite (dict_get_elem_of _ _ _ Hnd' Hin). }
  exists (st_write "##### Inputs"
          :: st_write ("Go ahead and play with `" ++ name func
                       ++ "` parameters, see how they change the output!")
          :: screen).
  unfold render_inputs. cbn [emit bind]. rewrite Hrun. cbn. split; [done|exact Hws].
Qed.

(** ** The call *)

Lemma NoDup_fst_agree {A B} (l : list (A * B)) k x y :
  NoDup (map fst l) → (k, x) ∈ l → (k, y) ∈ l → x = y.
Proof.
  induction l as [|[k' z] l IH]; cbn; intros Hnd Hx Hy.
  - by apply elem_of_nil in Hx.
  - apply NoDup_cons in Hnd as [Hk Hnd].
    apply elem_of_cons in Hx as [Hx|Hx];
      apply elem_of_cons in Hy as [Hy|Hy]; simplify_eq; try done.
    + destruct Hk. change k' with (k', y).1. by apply list_elem_of_fmap_2.
    + destruct Hk. change k' with (k', x).1. by apply list_elem_of_fmap_2.
    + by apply IH.
Qed.

Lemma render_inputs_keys ui (ss : session) func da screen inputs :
  render_inputs ui ss func da = (screen, Ok inputs) →
  ∀ k, dict_mem inputs k = true ↔
       ∃ p, (k, p) ∈ signature func
            ∧ supported (strip_optional (annotation p)) = true.
Proof.
  unfold render_inputs. cbn [emit bind].
  destruct (for_each _ _ _) as [out r] eqn:Hloop. intros [= _ ->] k.
  apply for_each_keys in Hloop as (ks & _ & _ & Hmem).
  rewrite dict_get_keys, Hmem. unfold get_arg_details. split.
  - intros [Hk|(a & Ha & <- & Hs)]; [by apply elem_of_nil in Hk|].
    apply list_elem_of_fmap in Ha as ([k' p] & -> & Hin). eauto.
  - intros (p & Hin & Hs). right.
    exists {| argument := k; type_hint := annotation p; default := param_default p |}.
    split; [|done]. apply list_elem_of_fmap. by exists (k, p).
Qed.

(** X6.  Where a skipped parameter surfaces.  After a render that
    returned, when every parameter can be bound by keyword (no
    positional-only parameter, no [*args], no [**kwargs]) and each
    parameter without default has a supported annotation, the call binds
    them all and the body runs on the inputs.  If a parameter other than
    [*args] and [**kwargs] has no default and an unsupported annotation,
    the call raises [TypeError] right after the output heading, the body
    does not run and the store is left as it was. *)
Theorem skipped_parameter_fails_the_call ui (ss : session) func da screen inputs :
  NoDup (map fst (signature func)) →
  render_inputs ui ss func da = (screen, Ok inputs) →
  ((∀ kv, kv ∈ signature func → by_keyword (kind kv.2) = true) →
   (∀ kv, kv ∈ signature func → param_default kv.2 = None →
          supported (strip_optional (annotation kv.2)) = true) →
   call func inputs = body func inputs)
  ∧ (∀ kv, kv ∈ signature func →
           variadic (kind kv.2) = false →
           param_default kv.2 = None →
           supported (strip_optional (annotation kv.2)) = false →
           function_explorer ui ss func da
           = (ss, ((screen ++ [st_write "##### Output"])%list, Err TypeError))).
Proof.
  intros Hnd Hr. pose proof (render_inputs_keys _ _ _ _ _ _ Hr) as Hkeys. split.
  - intros Hkw Hall. unfold call.
    replace (forallb (accepts func) _) with true; [replace (forallb _ _) with true|];
      [done| |]; symmetry; apply forallb_forall.
    + intros [k p] Hin%list_elem_of_In. unfold bound. cbn.
      specialize (Hkw _ Hin). cbn in Hkw. rewrite Hkw.
      destruct (variadic (kind p)); [done|]. cbn.
      destruct (param_default p) eqn:Hd; [done|].
      apply Hkeys. exists p. split; [done|]. by apply (Hall (k, p)).
    + intros k Hk%list_elem_of_In. apply dict_get_keys, Hkeys in Hk as (p & Hin & _).
      unfold accepts. apply orb_true_iff. left. apply existsb_exists.
      exists (k, p). split; [by apply list_elem_of_In|]. cbn.
      rewrite String.eqb_refl. by apply (Hkw (k, p)).
  - intros [k p] Hin Hv Hd Hs. cbn in Hv, Hd, Hs.
    assert (Hcall : call func inputs = raise TypeError).
    { unfold call.
      destruct (forallb (accepts func) _); [|done].
      destruct (forallb (bound inputs) _) eqn:Hf; [|done].
      rewrite forallb_forall in Hf.
      specialize (Hf (k, p) (proj1 (list_elem_of_In _ _) Hin)).
      unfold bound in Hf. cbn in Hf. rewrite Hv, Hd in Hf. cbn in Hf.
      apply andb_true_iff in Hf as [_ Hm].
      apply Hkeys in Hm as (p' & Hin' & Hs').
      rewrite (NoDup_fst_agree _ _ _ _ Hnd Hin Hin') in Hs. congruence. }
    unfold function_explorer, render_and_call. rewrite Hr. cbn [bind emit].
    rewrite Hcall. reflexivity.
Qed.

(** X15.  A parameter that keywords cannot bind.  After a render that
    returned, if a positional-only or [*args] parameter has a supported
    annotation and the function has no [**kwargs], the call of line 144
    passes its name as a keyword: the call raises [TypeError] right after
    the output heading, the body does not run and the store is left as it
    was. *)
Theorem positional_parameter_fails_the_call ui (ss : session) func da screen inputs :
  NoDup (map fst (signature func)) →
  render_inputs ui ss func da = (screen, Ok inputs) →
  ∀ kv, kv ∈ signature func →
        supported (strip_optional (annotation kv.2)) = true →
        by_keyword (kind kv.2) = false →
        takes_any_keyword func = false →
        function_explorer ui ss func da
        = (ss, ((screen ++ [st_write "##### Output"])%list, Err TypeError)).
Proof.
  intros Hnd Hr [k p] Hin Hs Hk Hany. cbn in Hs, Hk.
  pose proof (render_inputs_keys _ _ _ _ _ _ Hr) as Hkeys.
  assert (Hcall : call func inputs = raise TypeError).
  { unfold call. destruct (forallb (accepts func) _) eqn:Hf; [|done].
    rewrite forallb_forall in Hf.
    assert (Hmem : In k (dict_keys inputs)).
    { apply list_elem_of_In, dict_get_keys, Hkeys. eauto. }
    apply Hf in Hmem. unfold accepts in Hmem. rewrite Hany, orb_false_r in Hmem.
    apply existsb_exists in Hmem as ([k' p'] & Hin' & Hacc). cbn in Hacc.
    apply andb_true_iff in Hacc as [->%String.eqb_eq Hacc].
    apply list_elem_of_In in Hin'.
    rewrite (NoDup_fst_agree _ _ _ _ Hnd Hin' Hin) in Hacc. congruence. }
  unfold function_explorer, render_and_call. rewrite Hr. cbn [bind emit].
  rewrite Hcall. reflexivity.
Qed.

(** ** Labels *)

Lemma render_argument_label ui (ss : session) fn da acc a out acc' :
  render_argument ui ss fn da acc a = (out, Ok acc') →
  map widget_label (widget_calls out)
  = if draws_widget (strip_optional (type_hint a)) then [label_of a] else [].
Proof.
  unfold render_argument, label_of.
  destruct (strip_optional (type_hint a)) as [| | | | | | | opts | n args | n shown];
    cbn [hint_name draws_widget supported str_startswith_typing_Literal].
  all: try (destruct n as [tn|]).
  all: try destruct (endswith (argument a) "_color").
  all: try destruct (String.prefix "typing.Literal" shown).
  all: cbv zeta.
  all: repeat (cbn [lift bind ret raise emit widget];
               match goal with
               | |- context [match ?r with Ok _ => _ | Err _ => _ end] => destruct r
               end).
  all: cbn [lift bind ret raise emit widget].
  all: intros [= <- <-] || discriminate 1 || idtac.
  all: reflexivity.
Qed.

Lemma for_each_labels ui (ss : session) fn da (args : list Argument) :
  ∀ acc out inputs,
  for_each (render_argument ui ss fn da) args acc = (out, Ok inputs) →
  map widget_label (widget_calls out)
  = map label_of
        (List.filter (fun a => draws_widget (strip_optional (type_hint a))) args).
Proof.
  induction args as [|a rest IH]; intros acc out inputs Hrun.
  - cbn in Hrun. by injection Hrun as <- <-.
  - cbn [for_each] in Hrun.
    apply bind_inv_Ok in Hrun as (o1 & s' & o2 & Hstep & Hrest & ->).
    apply render_argument_label in Hstep. apply IH in Hrest.
    rewrite widget_calls_app, map_app, Hstep, Hrest. cbn [List.filter].
    by destruct (draws_widget _).
Qed.

(** X7.  The labels on the screen depend on the signature alone.  A run
    that returns draws exactly one widget for each parameter with a
    supported annotation other than [pd.DataFrame], in declaration order,
    labelled with the name, a star when the declared default is empty (an
    override does not remove it) and the name of the type; no label depends
    on the session, the overrides or the user. *)
Theorem widget_labels_follow_signature ui (ss : session) func da screen inputs :
  render_inputs ui ss func da = (screen, Ok inputs) →
  map widget_label (widget_calls screen)
  = map label_of
        (List.filter (fun a => draws_widget (strip_optional (type_hint a)))
                     (get_arg_details func)).
Proof.
  unfold render_inputs. cbn [emit bind].
  destruct (for_each _ _ _) as [out r] eqn:Hloop. intros [= <- ->].
  cbn. by eapply for_each_labels.
Qed.

(** ** Unions, tables and literals *)

(** X8.  Only [Optional[T]] is looked through.  A union that is not of two
    arguments with [NoneType] second (for instance [Union[None, int]] or
    [Union[int, str, None]]) is not rendered: with a [__name__] it gives
    the warning and leaves the inputs as they are, without one it raises
    the exception of line 92. *)
Theorem other_unions_are_not_rendered ui (ss : session) fn da inputs
    (arg : string) (n : option string) (args : list hint) (d : option value) :
  (∀ T, args ≠ [T; TyNoneType]) →
  render_argument ui ss fn da inputs
    {| argument := arg; type_hint := TyUnion n args; default := d |}
  = match n with
    | Some _ => ([st_warning (TyUnion n args)], Ok inputs)
    | None => ([], Err (Exception "Not sure how to handle"))
    end.
Proof.
  intros Hargs.
  assert (Hs : strip_optional (TyUnion n args) = TyUnion n args).
  { destruct args as [|T [|N [|]]]; try reflexivity.
    all: destruct N; try reflexivity.
    by destruct (Hargs T). }
  unfold render_argument. cbn [argument type_hint default]. rewrite Hs.
  cbn [hint_name]. destruct n; reflexivity.
Qed.

(** X9.  A table cannot be supplied from outside.  For a [pd.DataFrame]
    parameter with nothing truthy remembered, the step draws nothing and
    binds the argument to the one-row placeholder, whatever the declared
    default, the overrides and the user are. *)
Theorem table_ignores_default_and_override ui (ss : session) fn da inputs
    (a : Argument) (r : value) :
  strip_optional (type_hint a) = TyDataFrame →
  get_arg_from_session_state ss fn (argument a) = Ok r →
  truth r = Ok false →
  render_argument ui ss fn da inputs a
  = ([], Ok (dict_set inputs (argument a) placeholder_frame)).
Proof.
  intros Hh Hget Ht. unfold render_argument. rewrite Hh. cbn [hint_name].
  by rewrite (remembered_or_eq _ _ _ _ _ _ Hget Ht).
Qed.

Lemma tuple_index_first options v i :
  tuple_index options v = Ok i →
  ∃ o, options !! i = Some o
       ∧ py_eq o v = Ok true
       ∧ ∀ j o', (j < i)%nat → options !! j = Some o' → py_eq o' v = Ok false.
Proof.
  revert i. induction options as [|o rest IH]; intros i; cbn; [discriminate|].
  destruct (py_eq o v) as [[]|e] eqn:Ho; cbn; try discriminate.
  - intros [= <-]. exists o. repeat split; [done|]. intros j o' Hj. lia.
  - destruct (tuple_index rest v) as [i'|e]; cbn; [|discriminate].
    intros [= <-]. destruct (IH i' eq_refl) as (o1 & Hl & Heq & Hbefore).
    exists o1. repeat split; [done..|].
    intros [|j] o' Hj; cbn; [by intros [= <-]|].
    apply Hbefore. lia.
Qed.

(** X10.  The selector is always given a valid index.  Whenever a step
    draws a selector, its options are the arguments of the literal, its
    index lies within them, and it points at the first option equal to the
    default computed at lines 133-137; an untouched selector therefore
    returns that option instead of raising. *)
Theorem selector_index_is_valid ui (ss : session) fn da inputs (a : Argument)
    (label : string) (options : list value) (idx : nat) :
  st_widget (st_selectbox label options idx)
    ∈ (render_argument ui ss fn da inputs a).1 →
  options = get_args (strip_optional (type_hint a))
  ∧ ∃ d o,
      remembered_or_default_if_any ss fn (argument a)
        (override da (argument a) (default a)) (first_option options) = Ok d
      ∧ options !! idx = Some o
      ∧ py_eq o d = Ok true
      ∧ (∀ j o', (j < idx)%nat → options !! j = Some o' → py_eq o' d = Ok false)
      ∧ untouched (st_selectbox label options idx) = Ok o.
Proof.
  unfold render_argument.
  destruct (strip_optional (type_hint a)) as [| | | | | | | opts | n args | n shown];
    cbn [hint_name str_startswith_typing_Literal get_args].
  all: try (destruct n as [tn|]).
  all: try destruct (endswith (argument a) "_color").
  all: try destruct (String.prefix "typing.Literal" shown).
  all: cbv zeta.
  all: try (destruct (remembered_or_default_if_any _ _ _ _ _) as [d|e] eqn:Hd).
  all: try (destruct (remembered_or_default_or _ _ _ _ _) as [d'|e']).
  all: try (destruct (remembered_or _ _ _ _) as [d'|e']).
  all: cbn [lift bind ret raise emit widget fst].
  all: try (destruct (tuple_index _ d) as [i|e] eqn:Hi).
  all: cbn [lift bind ret raise emit widget fst].
  all: try (destruct (ui _)).
  all: cbn [lift bind ret raise emit widget fst app].
  all: intros Hw.
  all: repeat (apply elem_of_cons in Hw as [Hw|Hw]; [try discriminate Hw|]).
  all: try (by apply elem_of_nil in Hw).
  all: try (cbn in Hi; discriminate Hi).
  all: injection Hw as _ <- <-.
  all: split; [reflexivity|].
  all: destruct (tuple_index_first _ _ _ Hi) as (o & Hl & Heq & Hbefore).
  all: exists d, o; cbn [untouched]; rewrite Hl; by repeat split.
Qed.

(** X11.  A literal parameter without default and override starts at its
    first option: the selector is drawn at index 0 whatever the session
    remembers (the first option being equal to itself, as [None], booleans,
    integers and strings are). *)
Theorem required_literal_starts_at_first_option ui (ss : session) fn da inputs
    (a : Argument) (o : value) (rest : list value) :
  strip_optional (type_hint a) = TyLiteral (o :: rest) →
  override da (argument a) (default a) = None →
  py_eq o o = Ok true →
  (render_argument ui ss fn da inputs a).1
  = [st_widget (st_selectbox (label_of a) (o :: rest) 0)].
Proof.
  intros Hh Hov Ho. unfold render_argument, label_of. rewrite Hh, Hov.
  cbn [hint_name str_startswith_typing_Literal get_args
       remembered_or_default_if_any first_option tuple_index lift bind].
  rewrite Ho. cbn. by destruct (ui _).
Qed.

(** X14.  Text that looks like a literal.  An annotation outside the
    supported set that has a [__name__] and whose text starts with
    ["typing.Literal"] (as [typing.LiteralString] does) is taken for a
    literal without options: nothing is drawn and the step raises, with
    [IndexError] from [options[0]] when there is neither default nor
    override, and otherwise with the exception raised while recalling the
    default or, failing that, [ValueError] from [options.index]. *)
Theorem literal_text_without_options_aborts ui (ss : session) fn da inputs
    (a : Argument) :
  in_supported_set (strip_optional (type_hint a)) = false →
  str_startswith_typing_Literal (strip_optional (type_hint a)) = true →
  is_Some (hint_name (strip_optional (type_hint a))) →
  render_argument ui ss fn da inputs a
  = ([], Err match remembered_or_default_if_any ss fn (argument a)
                     (override da (argument a) (default a)) (Err IndexError) with
             | Ok _ => ValueError
             | Err e => e
             end).
Proof.
  intros Hset Hlit [tn Hn]. unfold render_argument.
  destruct (strip_optional (type_hint a)) as [| | | | | | | opts | n args | n shown];
    try discriminate Hset; try discriminate Hlit.
  cbn in Hlit, Hn. subst n.
  cbn [hint_name str_startswith_typing_Literal get_args first_option].
  rewrite Hlit. cbv zeta.
  by destruct (remembered_or_default_if_any _ _ _ _ _).
Qed.

(** ** Runs that return *)

Lemma render_basic_returns ui (ss : session) fn da acc (a : Argument) :
  (∀ w, (∀ label options idx, w ≠ st_selectbox label options idx) →
        ∃ v, ui w = Ok v) →
  ss !! fn = None →
  strip_optional (type_hint a) = TyEmpty
  ∨ plain (strip_optional (type_hint a)) = true
  ∨ strip_optional (type_hint a) = TyDataFrame →
  ∃ out acc', render_argument ui ss fn da acc a = (out, Ok acc').
Proof.
  intros Hui Hss Hh. unfold render_argument.
  unfold remembered_or_default_if_any, remembered_or_default_or, remembered_or.
  rewrite (nothing_remembered _ _ _ Hss).
  destruct (strip_optional (type_hint a)) as [| | | | | | | opts | n args | n shown];
    destruct Hh as [Hh|[Hh|Hh]]; try discriminate Hh; cbn [hint_name rbind].
  all: rewrite ?py_or_None.
  all: try destruct (endswith (argument a) "_color").
  all: destruct (override da (argument a) (default a)); cbn [lift bind ret].
  all: rewrite ?py_or_None; cbn [lift bind ret].
  all: try match goal with
           | |- context [widget _ ?w] =>
               let H := fresh in
               destruct (Hui w) as [? H]; [done|]; unfold widget; rewrite H
           end.
  all: cbn; eauto.
Qed.

Lemma for_each_returns {A S} (body : S → A → io S) (xs : list A) :
  (∀ x s, x ∈ xs → ∃ out s', body s x = (out, Ok s')) →
  ∀ s, ∃ out s', for_each body xs s = (out, Ok s').
Proof.
  induction xs as [|x rest IH]; intros Hall s; cbn; [by eexists _, _|].
  destruct (Hall x s) as (out & s' & ->); [left|]. cbn.
  destruct (IH (fun y t Hy => Hall y t (list_elem_of_further _ _ _ Hy)) s')
    as (out' & s'' & ->).
  by eexists _, _.
Qed.

(** X12.  A first render of basic parameters goes through.  When nothing
    is remembered under the function's name, every call of a widget other
    than the selector returns, every parameter can be bound by keyword (no
    positional-only parameter, no [*args], no [**kwargs]) and is untyped or
    typed [int], [float], [str], [bool] or [pd.DataFrame] (possibly as
    [Optional]), the render raises nothing, with or without defaults and
    overrides; every parameter is bound in the inputs, so the call reaches
    the body of the function. *)
Theorem basic_first_render_reaches_the_body ui (ss : session) func da :
  (∀ w, (∀ label options idx, w ≠ st_selectbox label options idx) →
        ∃ v, ui w = Ok v) →
  ss !! name func = None →
  (∀ kv, kv ∈ signature func →
         by_keyword (kind kv.2) = true
         ∧ (strip_optional (annotation kv.2) = TyEmpty
            ∨ plain (strip_optional (annotation kv.2)) = true
            ∨ strip_optional (annotation kv.2) = TyDataFrame)) →
  ∃ screen inputs,
    render_inputs ui ss func da = (screen, Ok inputs)
    ∧ (∀ kv, kv ∈ signature func → dict_mem inputs kv.1 = true)
    ∧ call func inputs = body func inputs.
Proof.
  intros Hui Hss Hall.
  destruct (for_each_returns (render_argument ui ss (name func) da)
              (get_arg_details func)) with (s := @nil (string * value))
    as (out & inputs & Hloop).
  { intros a acc Ha. unfold get_arg_details in Ha.
    apply list_elem_of_fmap in Ha as (kv & -> & Hkv).
    apply render_basic_returns; try done. by apply Hall. }
  assert (Hr : render_inputs ui ss func da
               = (st_write "##### Inputs"
                  :: st_write ("Go ahead and play with `" ++ name func
                               ++ "` parameters, see how they change the output!")
                  :: out, Ok inputs)).
  { unfold render_inputs. cbn [emit bind]. by rewrite Hloop. }
  pose proof (render_inputs_keys _ _ _ _ _ _ Hr) as Hkeys.
  assert (Hbound : ∀ kv, kv ∈ signature func → dict_mem inputs kv.1 = true).
  { intros [k p] Hkv. apply Hkeys.
    exists p. split; [done|].
    destruct (Hall _ Hkv) as [_ [Hh|[Hh|Hh]]]; cbn in Hh.
    - by rewrite Hh.
    - by destruct (strip_optional (annotation p)).
    - by rewrite Hh. }
  eexists _, inputs. split; [exact Hr|]. split; [exact Hbound|].
  unfold call.
  replace (forallb (accepts func) _) with true; [replace (forallb _ _) with true|];
    [done| |]; symmetry; apply forallb_forall.
  - intros kv Hin%list_elem_of_In. unfold bound.
    destruct (Hall _ Hin) as [-> _].
    destruct (variadic (kind kv.2)); [done|]. cbn.
    destruct (param_default kv.2); [done|]. by apply Hbound.
  - intros k Hk%list_elem_of_In. apply dict_get_keys, Hkeys in Hk as (p & Hin & _).
    unfold accepts. apply orb_true_iff. left. apply existsb_exists.
    exists (k, p). split; [by apply list_elem_of_In|]. cbn.
    rewrite String.eqb_refl. by apply (Hall (k, p)).
Qed.

(** X13.  The record keeps the last run only.  Writing the inputs of a run
    over those of an earlier run of the same function leaves the store as
    if the earlier run had not written: nothing of the earlier inputs
    stays, not even keys that the later inputs lack. *)
Theorem remember_keeps_last_run (ss : session) (fn : string) (earlier later : dict) :
  remember (remember ss fn earlier) fn later = remember ss fn later.
Proof.
  unfold remember. destruct (ss !! fn) as [record|] eqn:Hfn.
  - rewrite Hfn. rewrite !lookup_insert_eq.
    by rewrite insert_insert_eq, insert_insert_eq.
  - rewrite !lookup_insert_eq.
    by rewrite !insert_insert_eq.
Qed.

(** ** The further theorems at concrete inputs *)

Lemma run_then_read_back_at_resize :
  ∃ shown inputs,
    render_inputs (sets_to (VInt 9)) ∅ resize None = (shown, Ok inputs)
    ∧ ∀ k, get_arg_from_session_state
             (function_explorer (sets_to (VInt 9)) ∅ resize None).1 (name resize) k
           = match dict_get inputs k with
             | Some v => Ok v
             | None => Err (KeyError k)
             end.
Proof.
  apply (run_then_read_back (sets_to (VInt 9)) ∅
           (function_explorer (sets_to (VInt 9)) ∅ resize None).1 resize None
           (function_explorer (sets_to (VInt 9)) ∅ resize None).2.1).
  vm_compute. reflexivity.
Defined.

Lemma run_keeps_rest_of_store_at_resize :
  let ss := remember ∅ "scale" [("factor", VFloat three_point_five)] in
  (function_explorer (sets_to (VInt 9)) ss resize None).1 !! "scale" = ss !! "scale".
Proof.
  apply (proj1 (run_keeps_rest_of_store (sets_to (VInt 9))
                  (remember ∅ "scale" [("factor", VFloat three_point_five)])
                  resize None)).
  discriminate.
Defined.

Lemma stale_record_raises_KeyError_at_height :
  let ss := remember ∅ "resize" [("width", VInt 9)] in
  let a := {| argument := "height"; type_hint := TyInt; default := Some (VInt 3) |} in
  (∀ inputs, render_argument untouched ss (name resize_both) None inputs a
             = ([], Err (KeyError (argument a))))
  ∧ ∃ screen e, function_explorer untouched ss resize_both None = (ss, (screen, Err e)).
Proof.
  apply (stale_record_raises_KeyError untouched None
           (remember ∅ "resize" [("width", VInt 9)]) resize_both
           {| argument := "height"; type_hint := TyInt; default := Some (VInt 3) |}
           {["inputs" := [("width", VInt 9)]]} [("width", VInt 9)]).
  - vm_compute. right. left.
  - vm_compute. reflexivity.
  - vm_compute. reflexivity.
  - reflexivity.
  - reflexivity.
Defined.

Lemma unread_store_is_irrelevant_at_factor :
  let a := {| argument := "factor"; type_hint := TyFloat; default := None |} in
  render_argument untouched
    (remember ∅ "scale" [("factor", VFloat three_point_five)]) "scale" None [] a
  = render_argument untouched ∅ "scale" None [] a.
Proof.
  apply (unread_store_is_irrelevant untouched None
           (remember ∅ "scale" [("factor", VFloat three_point_five)]) ∅
           "scale" "scale" []
           {| argument := "factor"; type_hint := TyFloat; default := None |}).
  vm_compute. reflexivity.
Defined.

Lemma truthy_inputs_are_reproduced_at_resize :
  ∃ screen,
    render_inputs untouched (remember ∅ (name resize) [("width", VInt 9)]) resize None
    = (screen, Ok [("width", VInt 9)])
    ∧ Forall2 (fun iv w => shows w iv.2) [("width", VInt 9)] (widget_calls screen).
Proof.
  apply (truthy_inputs_are_reproduced ∅ resize None [("width", VInt 9)]).
  - cbn. apply NoDup_singleton.
  - constructor; [|constructor]. cbn.
    split; [reflexivity|]. split; [reflexivity|]. split; [by right|reflexivity].
Defined.

Lemma skipped_parameter_fails_the_call_at_pay :
  function_explorer untouched ∅ pay None
  = (∅, ([st_write "##### Inputs";
          st_write "Go ahead and play with `pay` parameters, see how they change the output!";
          st_warning (TyOther (Some "Decimal") "<class 'decimal.Decimal'>");
          st_write "##### Output"],
         Err TypeError)).
Proof.
  apply (proj2 (skipped_parameter_fails_the_call untouched ∅ pay None
                  [st_write "##### Inputs";
                   st_write "Go ahead and play with `pay` parameters, see how they change the output!";
                   st_warning (TyOther (Some "Decimal") "<class 'decimal.Decimal'>")]
                  []
                  ltac:(cbn; apply NoDup_singleton)
                  ltac:(vm_compute; reflexivity))
           ("price", {| annotation := TyOther (Some "Decimal") "<class 'decimal.Decimal'>";
                        param_default := None;
                        kind := POSITIONAL_OR_KEYWORD |})).
  - vm_compute. left.
  - reflexivity.
  - reflexivity.
  - reflexivity.
Defined.

Lemma positional_parameter_fails_the_call_at_square :
  function_explorer untouched ∅ square None
  = (∅, ([st_write "##### Inputs";
          st_write "Go ahead and play with `square` parameters, see how they change the output!";
          st_widget (st_number_input "x* (int)" (Some 1%Z) (VInt 12));
          st_write "##### Output"],
         Err TypeError)).
Proof.
  apply (positional_parameter_fails_the_call untouched ∅ square None
           [st_write "##### Inputs";
            st_write "Go ahead and play with `square` parameters, see how they change the output!";
            st_widget (st_number_input "x* (int)" (Some 1%Z) (VInt 12))]
           [("x", VInt 12)]
           ltac:(cbn; apply NoDup_singleton)
           ltac:(vm_compute; reflexivity)
           ("x", {| annotation := TyInt; param_default := None;
                    kind := POSITIONAL_ONLY |})).
  - vm_compute. left.
  - reflexivity.
  - reflexivity.
  - reflexivity.
Defined.

Lemma literal_text_without_options_aborts_at_query :
  render_argument untouched ∅ "query" None []
    {| argument := "sql"; type_hint := LiteralString; default := None |}
  = ([], Err IndexError).
Proof.
  apply (literal_text_without_options_aborts untouched ∅ "query" None []
           {| argument := "sql"; type_hint := LiteralString; default := None |}).
  - reflexivity.
  - reflexivity.
  - by eexists.
Defined.

Lemma widget_labels_follow_signature_at_foo :
  map widget_label
      (widget_calls
         [st_write "##### Inputs";
          st_write "Go ahead and play with `foo` parameters, see how they change the output!";
          st_widget (st_number_input "age* (int)" (Some 1%Z) (VInt 12));
          st_widget (st_keyup "name* (str)" (VStr "Sample string"));
          st_widget (st_keyup "image_url (str)" (VStr "http://placekitten.com/120/120"))])
  = map label_of
        (List.filter (fun a => draws_widget (strip_optional (type_hint a)))
                     (get_arg_details foo)).
Proof.
  apply (widget_labels_follow_signature untouched ∅ foo None _
           [("age", VInt 12); ("name", VStr "Sample string");
            ("image_url", VStr "http://placekitten.com/120/120")]).
  vm_compute. reflexivity.
Defined.

Lemma other_unions_are_not_rendered_at_none_first :
  render_argument untouched ∅ "foo" None []
    {| argument := "age";
       type_hint := TyUnion (Some "Optional") [TyNoneType; TyInt];
       default := None |}
  = ([st_warning (TyUnion (Some "Optional") [TyNoneType; TyInt])], Ok []).
Proof.
  apply (other_unions_are_not_rendered untouched ∅ "foo" None [] "age"
           (Some "Optional") [TyNoneType; TyInt] None).
  intros T. discriminate.
Defined.

Lemma table_ignores_default_and_override_at_show :
  let a := {| argument := "df"; type_hint := TyDataFrame;
              default := Some (VDataFrame [[VInt 1]; [VInt 2]]) |} in
  render_argument untouched ∅ "show" (Some {["df" := VDataFrame [[VInt 3]]]}) [] a
  = ([], Ok [("df", placeholder_frame)]).
Proof.
  apply (table_ignores_default_and_override untouched ∅ "show"
           (Some {["df" := VDataFrame [[VInt 3]]]}) []
           {| argument := "df"; type_hint := TyDataFrame;
              default := Some (VDataFrame [[VInt 1]; [VInt 2]]) |} VNone);
    reflexivity.
Defined.

Lemma selector_index_is_valid_at_mode :
  let a := {| argument := "mode"; type_hint := TyLiteral [VStr "a"; VStr "b"];
              default := Some (VStr "b") |} in
  let options := [VStr "a"; VStr "b"] in
  options = get_args (strip_optional (type_hint a))
  ∧ ∃ d o,
      remembered_or_default_if_any ∅ "pick" (argument a)
        (override None (argument a) (default a)) (first_option options) = Ok d
      ∧ options !! 1%nat = Some o
      ∧ py_eq o d = Ok true
      ∧ (∀ j o', (j < 1)%nat → options !! j = Some o' → py_eq o' d = Ok false)
      ∧ untouched (st_selectbox "mode (Literal)" options 1) = Ok o.
Proof.
  apply (selector_index_is_valid untouched ∅ "pick" None []
           {| argument := "mode"; type_hint := TyLiteral [VStr "a"; VStr "b"];
              default := Some (VStr "b") |}
           "mode (Literal)" [VStr "a"; VStr "b"] 1).
  vm_compute. left.
Defined.

Lemma required_literal_starts_at_first_option_at_mode :
  let a := {| argument := "mode"; type_hint := TyLiteral [VStr "a"; VStr "b"];
              default := None |} in
  (render_argument untouched
     (remember ∅ "pick" [("mode", VStr "b")]) "pick" None [] a).1
  = [st_widget (st_selectbox (label_of a) [VStr "a"; VStr "b"] 0)].
Proof.
  apply (required_literal_starts_at_first_option untouched
           (remember ∅ "pick" [("mode", VStr "b")]) "pick" None []
           {| argument := "mode"; type_hint := TyLiteral [VStr "a"; VStr "b"];
              default := None |}
           (VStr "a") [VStr "b"]);
    reflexivity.
Defined.

Lemma basic_first_render_reaches_the_body_at_foo :
  ∃ screen inputs,
    render_inputs untouched ∅ foo None = (screen, Ok inputs)
    ∧ (∀ kv, kv ∈ signature foo → dict_mem inputs kv.1 = true)
    ∧ call foo inputs = body foo inputs.
Proof.
  apply (basic_first_render_reaches_the_body untouched ∅ foo None).
  - intros w Hw. destruct w; cbn; eauto. by destruct (Hw label options index).
  - reflexivity.
  - intros kv Hkv. cbn in Hkv.
    repeat (apply elem_of_cons in Hkv as [-> | Hkv];
            [split; [reflexivity|right; left; reflexivity]|]).
    by apply elem_of_nil in Hkv.
Defined.
